(** * Oil & gas investment model: decline-curve cash flows, IRR, Monte Carlo, risk

    A shallow embedding of the quantitative engine of
    [streamlit_oil_gas_app.py]:

    - [calculate_oil_gas_model]  (the 60-month cash-flow projection),
    - [calculate_irr_scipy]      (the IRR wrapper around scipy's [fsolve]),
    - [run_monte_carlo_simulation] (the sampling loop),
    - [create_risk_assessment]   (the risk statistics).

    Numbers.  Python floats are read as exact rationals ([Q]): [+], [-], [*],
    [/] and integer powers are the exact operations, so rounding, overflow
    and underflow are outside the model.  Where the source can produce a
    NaN or an infinity (pandas' sample standard deviation of fewer than two
    values, the coefficient of variation of a zero mean) the value has type
    [pyfloat], which adds those two values to the rationals.

    Libraries.  Three library routines are not part of the repository and
    are taken as parameters: scipy's [fsolve], numpy's [random.normal] and
    the square root inside pandas' [std].  The streamlit progress widgets
    only draw on the page and are left out. *)

From Stdlib Require Import String QArith Qpower Qabs Qround ZArith List Lia Lqa Bool.
From Stdlib Require Import Sorted.
Import ListNotations.
Open Scope Q_scope.

(** ** Python exceptions the modelled code can raise *)

Inductive exn : Type :=
| ZeroDivisionError            (* [0.0 ** -n] on Python floats *)
| KeyError (key : string).     (* a column that the DataFrame does not have *)

(** A small error monad for the code paths that can raise. *)
Definition result (A : Type) : Type := (exn + A)%type.

Definition ok {A} (a : A) : result A := inr a.
Definition raise {A} (e : exn) : result A := inl e.
Definition bind {A B} (c : result A) (k : A -> result B) : result B :=
  match c with
  | inl e => inl e
  | inr a => k a
  end.

Notation "x <- c ;; k" := (bind c (fun x => k))
  (at level 61, c at next level, right associativity).

Fixpoint mapM {A B} (f : A -> result B) (l : list A) : result (list B) :=
  match l with
  | [] => ok []
  | a :: t => b <- f a ;; bs <- mapM f t ;; ok (b :: bs)
  end.

(** ** Python and pandas primitives *)

Definition Qlt_bool (a b : Q) : bool := negb (Qle_bool b a).

(** [max(a, b)]: the first argument unless the second is strictly larger. *)
Definition py_max (a b : Q) : Q := if Qlt_bool a b then b else a.

(** [min(a, b)]: the first argument unless the second is strictly smaller. *)
Definition py_min (a b : Q) : Q := if Qlt_bool b a then b else a.

(** [b ** e] on a Python float with an integer exponent: a zero base with a
    negative exponent raises. *)
Definition float_pow (b : Q) (e : Z) : result Q :=
  if Qeq_bool b 0 && (e <? 0)%Z then raise ZeroDivisionError else ok (b ^ e).

(** Element-wise arithmetic on columns ([pandas.Series]). *)
Fixpoint zip_with {A B C} (f : A -> B -> C) (a : list A) (b : list B) : list C :=
  match a, b with
  | x :: a', y :: b' => f x y :: zip_with f a' b'
  | _, _ => []
  end.

Definition col_add (a b : list Q) : list Q := zip_with Qplus a b.
Definition col_sub (a b : list Q) : list Q := zip_with Qminus a b.
Definition col_mul (a b : list Q) : list Q := zip_with Qmult a b.
Definition col_scale (a : list Q) (k : Q) : list Q := map (fun x => x * k) a.
Definition col_div (a : list Q) (k : Q) : list Q := map (fun x => x / k) a.

(** [Series.sum()] and Python's [sum]: left to right from 0. *)
Definition series_sum (l : list Q) : Q := fold_left Qplus l 0.

(** [Series.cumsum()]. *)
Fixpoint cumsum_from (acc : Q) (l : list Q) : list Q :=
  match l with
  | [] => []
  | x :: t => (acc + x) :: cumsum_from (acc + x) t
  end.

Definition cumsum (l : list Q) : list Q := cumsum_from 0 l.

(** [Series.iloc[-1]] and [Series.max()] on a non-empty column. *)
Definition iloc_last (l : list Q) : Q := last l 0.

Definition series_max (l : list Q) : Q :=
  match l with
  | [] => 0
  | x :: t => fold_left (fun m y => if Qlt_bool m y then y else m) t x
  end.

(** ** The data of a projection *)

(** The monthly table: one list per DataFrame column. *)
Module DF.
Record t : Type := mk {
  Month : list Z;
  Oil_Production : list Q;
  Gas_Production : list Q;
  Oil_Revenue : list Q;
  Gas_Revenue : list Q;
  Total_Revenue : list Q;
  Operating_Expenses : list Q;
  Severance_Tax : list Q;
  Total_OpEx : list Q;
  Net_Operating_Income : list Q;
  CapEx : list Q;
  Net_Cash_Flow : list Q;
  Cumulative_Cash_Flow : list Q;
  PV_Factor : list Q;
  PV_Cash_Flow : list Q
}.
End DF.

(** The [summary] dictionary. *)
Module Summary.
Record t : Type := mk {
  Total_Investment : Q;
  Total_Revenue : Q;
  NPV : Q;
  IRR : Q;
  Payback_Months : nat;
  Final_Cumulative_CF : Q;
  Peak_Production : Q;
  Final_Production : Q
}.
End Summary.

(** ** scipy's [fsolve], as the code sees it

    [fsolve(func, x0)] either raises, or returns its last iterate; the
    integer flag [ier] is 1 exactly when scipy reports that a solution was
    found.  With [full_output] left at its default the caller receives the
    iterate only: a failed search shows as a warning, not as an exception. *)
Inductive fsolve_outcome : Type :=
| FsolveRaised
| FsolveReturned (x : Q) (ier : Z).

Definition solver : Type := (Q -> Q) -> Q -> fsolve_outcome.

(** ** Model constants of [calculate_oil_gas_model] *)

Definition months : list Z := map Z.of_nat (seq 1 60).

Definition base_opex : Q := 15.
Definition cost_escalation : Q := 25 # 1000.

Definition capex_schedule : list Q :=
  [500; 300; 200; 100; 50; 50] ++ repeat 10 18 ++ repeat 5 36.

(** ** The columns, in the order the code computes them *)

Definition oil_production_col (initial_production decline_rate : Q) : list Q :=
  map (fun month => initial_production * ((1 - decline_rate) ^ (month - 1))) months.

Definition operating_expenses_col : list Q :=
  map (fun month => base_opex * ((1 + cost_escalation / 12) ^ (month - 1))) months.

(** The net cash flow column as a function of the four parameters it depends
    on (the decline rate already divided by 100): the same steps as in
    [calculate_oil_gas_model] below, which does not use the discount rate
    before the PV factor. *)
Definition net_cash_flow_col
    (oil_price gas_price initial_production decline_rate : Q) : list Q :=
  let Oil_Production := oil_production_col initial_production decline_rate in
  let Gas_Production := col_scale Oil_Production 6 in
  let Oil_Revenue := col_div (col_scale Oil_Production oil_price) 1000 in
  let Gas_Revenue := col_div (col_scale Gas_Production gas_price) 1000 in
  let Total_Revenue := col_add Oil_Revenue Gas_Revenue in
  let Severance_Tax := col_scale Total_Revenue (75 # 1000) in
  let Total_OpEx := col_add operating_expenses_col Severance_Tax in
  let Net_Operating_Income := col_sub Total_Revenue Total_OpEx in
  col_sub Net_Operating_Income capex_schedule.

(** The payback loop: [for i, cum_cf in enumerate(...)] with its [break]. *)
Fixpoint payback_loop (i : nat) (cum : list Q) (payback_month : nat) : nat :=
  match cum with
  | [] => payback_month
  | cum_cf :: rest =>
      if Qle_bool 0 cum_cf then (i + 1)%nat
      else payback_loop (S i) rest payback_month
  end.

Section Engine.

Variable fsolve : solver.

(** ** [calculate_irr_scipy] *)

Fixpoint npv_terms (rate : Q) (i : Z) (cash_flows : list Q) : list Q :=
  match cash_flows with
  | [] => []
  | cf :: rest => cf / ((1 + rate / 12) ^ (i + 1)) :: npv_terms rate (i + 1) rest
  end.

Definition npv_func (cash_flows : list Q) (rate : Q) : Q :=
  series_sum (npv_terms rate 0 cash_flows).

Definition calculate_irr_scipy (cash_flows : list Q) : Q :=
  match fsolve (npv_func cash_flows) (1 # 10) with
  | FsolveReturned x _ =>
      let irr := x * 100 in
      py_max (py_min irr 1000) (-100)
  | FsolveRaised => 0
  end.

(** ** [calculate_oil_gas_model] *)

Definition calculate_oil_gas_model
    (oil_price gas_price initial_production decline_rate discount_rate : Q)
    : result (DF.t * Summary.t) :=
  let decline_rate := decline_rate / 100 in
  let discount_rate := discount_rate / 100 in
  let Oil_Production := oil_production_col initial_production decline_rate in
  let Gas_Production := col_scale Oil_Production 6 in
  let Oil_Revenue := col_div (col_scale Oil_Production oil_price) 1000 in
  let Gas_Revenue := col_div (col_scale Gas_Production gas_price) 1000 in
  let Total_Revenue := col_add Oil_Revenue Gas_Revenue in
  let Operating_Expenses := operating_expenses_col in
  let Severance_Tax := col_scale Total_Revenue (75 # 1000) in
  let Total_OpEx := col_add Operating_Expenses Severance_Tax in
  let Net_Operating_Income := col_sub Total_Revenue Total_OpEx in
  let CapEx := capex_schedule in
  let Net_Cash_Flow := col_sub Net_Operating_Income CapEx in
  let Cumulative_Cash_Flow := cumsum Net_Cash_Flow in
  let monthly_discount := discount_rate / 12 in
  PV_Factor <- mapM (fun month => float_pow (1 + monthly_discount) (- month)) months ;;
  let PV_Cash_Flow := col_mul Net_Cash_Flow PV_Factor in
  let total_investment := series_sum CapEx in
  let total_revenue := series_sum Total_Revenue in
  let npv := series_sum PV_Cash_Flow in
  let final_cumulative := iloc_last Cumulative_Cash_Flow in
  let payback_month := payback_loop 0 Cumulative_Cash_Flow 60 in
  let irr := calculate_irr_scipy Net_Cash_Flow in
  ok (DF.mk months Oil_Production Gas_Production Oil_Revenue Gas_Revenue
        Total_Revenue Operating_Expenses Severance_Tax Total_OpEx
        Net_Operating_Income CapEx Net_Cash_Flow Cumulative_Cash_Flow
        PV_Factor PV_Cash_Flow,
      Summary.mk total_investment total_revenue npv irr payback_month
        final_cumulative (series_max Oil_Production) (iloc_last Oil_Production)).

End Engine.

(** ** [run_monte_carlo_simulation] *)

(** [base_params]: a dict with five fixed keys. *)
Module Params.
Record t : Type := mk {
  oil_price : Q;
  gas_price : Q;
  initial_production : Q;
  decline_rate : Q;
  discount_rate : Q
}.
End Params.

(** [volatility_factors]: a dict with four fixed keys. *)
Module Volatility.
Record t : Type := mk {
  oil_price : Q;
  gas_price : Q;
  initial_production : Q;
  decline_rate : Q
}.

Definition default : t := mk (15 # 100) (25 # 100) (10 # 100) (20 # 100).
End Volatility.

(** One dict appended to [results]: a row of the Monte Carlo DataFrame. *)
Module Row.
Record t : Type := mk {
  Oil_Price : Q;
  Gas_Price : Q;
  Initial_Production : Q;
  Decline_Rate : Q;
  NPV : Q;
  IRR : Q;
  Payback_Months : nat;
  Final_Cumulative_CF : Q;
  Total_Investment : Q;
  Total_Revenue : Q
}.
End Row.

Section MonteCarlo.

Variable fsolve : solver.

(** numpy's global generator: [np.random.normal(loc, scale)] reads the
    generator state and leaves a new one. *)
Variable rng : Type.
Variable normal : Q -> Q -> rng -> Q * rng.

(** The body of the [for i in range(num_simulations)] loop: four draws,
    their floors and caps, one projection, one row. *)
Definition mc_trial (base_params : Params.t) (volatility_factors : Volatility.t)
    (g : rng) : result (Row.t * rng) :=
  let '(x, g) := normal (Params.oil_price base_params)
                   (Params.oil_price base_params
                    * Volatility.oil_price volatility_factors) g in
  let oil_price := py_max 20 x in
  let '(x, g) := normal (Params.gas_price base_params)
                   (Params.gas_price base_params
                    * Volatility.gas_price volatility_factors) g in
  let gas_price := py_max 1 x in
  let '(x, g) := normal (Params.initial_production base_params)
                   (Params.initial_production base_params
                    * Volatility.initial_production volatility_factors) g in
  let initial_production := py_max 100 x in
  let '(x, g) := normal (Params.decline_rate base_params)
                   (Params.decline_rate base_params
                    * Volatility.decline_rate volatility_factors) g in
  let decline_rate := py_max (1 # 2) (py_min 10 x) in
  r <- calculate_oil_gas_model fsolve oil_price gas_price initial_production
         decline_rate (Params.discount_rate base_params) ;;
  let summary := snd r in
  ok (Row.mk oil_price gas_price initial_production decline_rate
        (Summary.NPV summary) (Summary.IRR summary)
        (Summary.Payback_Months summary)
        (Summary.Final_Cumulative_CF summary)
        (Summary.Total_Investment summary)
        (Summary.Total_Revenue summary),
      g).

Fixpoint mc_loop (base_params : Params.t) (volatility_factors : Volatility.t)
    (remaining : nat) (results : list Row.t) (g : rng)
    : result (list Row.t * rng) :=
  match remaining with
  | O => ok (results, g)
  | S remaining' =>
      rg <- mc_trial base_params volatility_factors g ;;
      mc_loop base_params volatility_factors remaining'
        (results ++ [fst rg]) (snd rg)
  end.

Definition run_monte_carlo_simulation (base_params : Params.t)
    (num_simulations : nat) (volatility_factors : option Volatility.t)
    (g : rng) : result (list Row.t * rng) :=
  let volatility_factors :=
    match volatility_factors with
    | None => Volatility.default
    | Some v => v
    end in
  mc_loop base_params volatility_factors num_simulations [] g.

End MonteCarlo.

(** ** [create_risk_assessment] *)

(** A float that may be infinite or not a number. *)
Inductive pyfloat : Type :=
| Fin (q : Q)
| Inf
| NaN.

(** Equality of floats up to the representation of the rational. *)
Definition pf_eq (a b : pyfloat) : Prop :=
  match a, b with
  | Fin x, Fin y => x == y
  | Inf, Inf => True
  | NaN, NaN => True
  | _, _ => False
  end.

(** [x > 0]: false on NaN. *)
Definition pf_gt_zero (x : pyfloat) : bool :=
  match x with
  | Fin q => Qlt_bool 0 q
  | Inf => true
  | NaN => false
  end.

(** [x / d] for a finite [d > 0]. *)
Definition pf_div_pos (x : pyfloat) (d : Q) : pyfloat :=
  match x with
  | Fin q => Fin (q / d)
  | Inf => Inf
  | NaN => NaN
  end.

(** [e / x] for a finite [e] and a float [x] that is not zero. *)
Definition q_div_pf (e : Q) (x : pyfloat) : pyfloat :=
  match x with
  | Fin q => Fin (e / q)
  | Inf => Fin 0
  | NaN => NaN
  end.

Definition count_of (l : list Q) : Q := inject_Z (Z.of_nat (length l)).

(** [Series.mean()] of a non-empty numeric column. *)
Definition series_mean (l : list Q) : Q := series_sum l / count_of l.

(** [Series.mean()] of a boolean column: the share of [True]. *)
Definition bool_mean (l : list bool) : Q :=
  inject_Z (Z.of_nat (length (filter (fun b => b) l)))
  / inject_Z (Z.of_nat (length l)).

(** Sorting, for the order statistics. *)
Fixpoint insert_sorted (x : Q) (l : list Q) : list Q :=
  match l with
  | [] => [x]
  | y :: t => if Qle_bool x y then x :: y :: t else y :: insert_sorted x t
  end.

Definition sort (l : list Q) : list Q := fold_right insert_sorted [] l.

(** The linear-interpolation quantile shared by [Series.quantile(p)] and
    [np.percentile(a, 100 p)], on a non-empty column. *)
Definition linear_quantile (l : list Q) (p : Q) : Q :=
  let s := sort l in
  let n := length l in
  let virtual_index := inject_Z (Z.of_nat (n - 1)) * p in
  let lo := Qfloor virtual_index in
  let hi := Z.min (lo + 1) (Z.of_nat (n - 1)) in
  let gamma := virtual_index - inject_Z lo in
  let a := nth (Z.to_nat lo) s 0 in
  let b := nth (Z.to_nat hi) s 0 in
  a + (b - a) * gamma.

Definition np_percentile (l : list Q) (q : Q) : Q := linear_quantile l (q / 100).

(** The [risk_metrics] dictionary. *)
Module Risk.
Record t : Type := mk {
  Expected_NPV : Q;
  Probability_Positive : Q;
  Probability_Excellent : Q;
  Value_at_Risk_5 : Q;
  Standard_Deviation : pyfloat;
  Coefficient_of_Variation : pyfloat;
  Downside_Deviation : pyfloat;
  Risk_Adjusted_Return : pyfloat;
  P10_NPV : Q;
  P50_NPV : Q;
  P90_NPV : Q
}.
End Risk.

(** [mc_results['NPV']].  [mc_results] is [pd.DataFrame(results)] for the list
    [results] of row dicts: its columns are the keys of the rows, so a
    DataFrame made of no row has no column at all and the lookup raises. *)
Definition column_NPV (mc_results : list Row.t) : result (list Q) :=
  match mc_results with
  | [] => raise (KeyError "NPV")
  | _ :: _ => ok (map Row.NPV mc_results)
  end.

Section RiskAssessment.

(** The square root taken inside [Series.std()]. *)
Variable sqrt : Q -> Q.

(** [Series.std()]: the sample standard deviation (one delta degree of
    freedom), NaN when there are fewer than two values. *)
Definition series_std (l : list Q) : pyfloat :=
  let count := length l in
  if (count <=? 1)%nat then NaN
  else
    let avg := series_sum l / count_of l in
    let sqr := map (fun v => (avg - v) ^ 2) l in
    Fin (sqrt (series_sum sqr / inject_Z (Z.of_nat (count - 1)))).

Definition create_risk_assessment (mc_results : list Row.t) : result Risk.t :=
  npv_values <- column_NPV mc_results ;;
  let probability_positive :=
    bool_mean (map (fun v => Qlt_bool 0 v) npv_values) * 100 in
  let probability_excellent :=
    bool_mean (map (fun v => Qlt_bool (linear_quantile npv_values (75 # 100)) v)
                 npv_values) * 100 in
  let value_at_risk_5 := np_percentile npv_values 5 in
  let expected_value := series_mean npv_values in
  let std_dev := series_std npv_values in
  let cv :=
    if negb (Qeq_bool expected_value 0)
    then pf_div_pos std_dev (Qabs expected_value)
    else Inf in
  let downside_returns :=
    filter (fun v => Qlt_bool v expected_value) npv_values in
  let downside_deviation :=
    if (0 <? length downside_returns)%nat
    then series_std downside_returns
    else Fin 0 in
  let sharpe_ratio :=
    if pf_gt_zero std_dev then q_div_pf expected_value std_dev else Fin 0 in
  ok (Risk.mk expected_value probability_positive probability_excellent
        value_at_risk_5 std_dev cv downside_deviation sharpe_ratio
        (np_percentile npv_values 10) (np_percentile npv_values 50)
        (np_percentile npv_values 90)).

End RiskAssessment.

(** ** Library stand-ins used to run the model on concrete inputs *)

(** A root search that stops at once without a solution: the last iterate
    is the starting point and the flag is scipy's code 5 (no good
    progress). *)
Definition fsolve_gives_up : solver := fun _ x0 => FsolveReturned x0 5.

(** A root search that raises. *)
Definition fsolve_raises : solver := fun _ _ => FsolveRaised.

(** A generator whose every draw is the mean minus three standard
    deviations; its state counts the draws. *)
Definition normal_low : Q -> Q -> nat -> Q * nat :=
  fun loc scale g => (loc - 3 * scale, S g).

(** The square root rounded down to the denominator of its reduced
    argument. *)
Definition sqrt_floor (x : Q) : Q :=
  let r := Qred x in
  Z.sqrt (Qnum r * Zpos (Qden r)) # Qden r.

(** ** [get_investment_grade] *)

Definition get_investment_grade (npv_return : Q) : string * string :=
  if Qlt_bool 25 npv_return then ("🏆 EXCELLENT", "#28a745")%string
  else if Qlt_bool 15 npv_return then ("🥇 VERY GOOD", "#28a745")%string
  else if Qlt_bool 5 npv_return then ("🥈 GOOD", "#ffc107")%string
  else if Qlt_bool 0 npv_return then ("🥉 ACCEPTABLE", "#ffc107")%string
  else ("❌ POOR", "#dc3545")%string.

(** ** Figures that [main] derives from a projection and from a batch *)

(** [npv_return = (summary['NPV'] / summary['Total_Investment']) * 100]. *)
Definition npv_return (summary : Summary.t) : Q :=
  (Summary.NPV summary / Summary.Total_Investment summary) * 100.

(** [oil_percentage] and [gas_percentage]: the shares of the total revenue. *)
Definition oil_percentage (df : DF.t) (summary : Summary.t) : Q :=
  (series_sum (DF.Oil_Revenue df) / Summary.Total_Revenue summary) * 100.

Definition gas_percentage (df : DF.t) (summary : Summary.t) : Q :=
  (series_sum (DF.Gas_Revenue df) / Summary.Total_Revenue summary) * 100.

(** [downside_risk = (mc_results['NPV'] < 0).mean() * 100], computed after
    the risk assessment on the same (non-empty) batch. *)
Definition downside_risk (mc_results : list Row.t) : Q :=
  bool_mean (map (fun v => Qlt_bool v 0) (map Row.NPV mc_results)) * 100.

(** The [scenarios] dict of the scenario analysis, in insertion order. *)
Definition scenarios
    (oil_price gas_price initial_production decline_rate discount_rate : Q)
    : list (string * Params.t) :=
  [ ("Conservative"%string,
     Params.mk (oil_price * (8 # 10)) (gas_price * (8 # 10))
       (initial_production * (8 # 10)) (decline_rate * (15 # 10)) discount_rate);
    ("Base Case"%string,
     Params.mk oil_price gas_price initial_production decline_rate discount_rate);
    ("Optimistic"%string,
     Params.mk (oil_price * (12 # 10)) (gas_price * (12 # 10))
       (initial_production * (12 # 10)) (decline_rate * (7 # 10)) discount_rate) ].

(** The loop [for name, params in scenarios.items()] filling
    [scenario_results] with the summary of each scenario. *)
Definition scenario_results (fsolve : solver)
    (oil_price gas_price initial_production decline_rate discount_rate : Q)
    : result (list (string * Summary.t)) :=
  mapM (fun entry : string * Params.t =>
          let params := snd entry in
          r <- calculate_oil_gas_model fsolve (Params.oil_price params)
                 (Params.gas_price params) (Params.initial_production params)
                 (Params.decline_rate params) (Params.discount_rate params) ;;
          ok (fst entry, snd r))
    (scenarios oil_price gas_price initial_production decline_rate discount_rate).

(** ** Predicates on a Monte Carlo row *)

(** The floors and caps of the sampled parameters. *)
Definition sampled_within_bounds (row : Row.t) : Prop :=
  20 <= Row.Oil_Price row /\
  1 <= Row.Gas_Price row /\
  100 <= Row.Initial_Production row /\
  (1 # 2) <= Row.Decline_Rate row /\
  Row.Decline_Rate row <= 10.

(** The row records the summary of the projection run on the row's sampled
    parameters with the given discount rate. *)
Definition projected_with (fsolve : solver) (discount_rate : Q) (row : Row.t) : Prop :=
  exists df s,
    calculate_oil_gas_model fsolve (Row.Oil_Price row) (Row.Gas_Price row)
      (Row.Initial_Production row) (Row.Decline_Rate row) discount_rate
    = inr (df, s) /\
    Row.NPV row = Summary.NPV s /\
    Row.IRR row = Summary.IRR s /\
    Row.Payback_Months row = Summary.Payback_Months s /\
    Row.Final_Cumulative_CF row = Summary.Final_Cumulative_CF s /\
    Row.Total_Investment row = Summary.Total_Investment s /\
    Row.Total_Revenue row = Summary.Total_Revenue s.

(** * Properties *)

(** ** Comparisons and the Python extrema *)

Lemma Qlt_bool_iff (a b : Q) : Qlt_bool a b = true <-> a < b.
Proof.
  unfold Qlt_bool. rewrite negb_true_iff.
  split; intro H.
  - apply Qnot_le_lt. intro L. apply Qle_bool_iff in L. congruence.
  - destruct (Qle_bool b a) eqn:E; [| reflexivity].
    apply Qle_bool_iff in E. exfalso. exact (Qlt_not_le _ _ H E).
Qed.

Lemma Qlt_bool_false_iff (a b : Q) : Qlt_bool a b = false <-> b <= a.
Proof.
  unfold Qlt_bool. rewrite negb_false_iff. apply Qle_bool_iff.
Qed.

Lemma Qle_bool_false_iff (a b : Q) : Qle_bool a b = false <-> b < a.
Proof.
  rewrite <- Qlt_bool_iff. unfold Qlt_bool.
  destruct (Qle_bool a b); simpl; split; congruence.
Qed.

Lemma py_max_lower (a b : Q) : a <= py_max a b.
Proof.
  unfold py_max. destruct (Qlt_bool a b) eqn:E.
  - apply Qlt_bool_iff in E. apply Qlt_le_weak, E.
  - apply Qle_refl.
Qed.

Lemma py_max_upper (a b c : Q) : a <= c -> b <= c -> py_max a b <= c.
Proof.
  unfold py_max. destruct (Qlt_bool a b); auto.
Qed.

Lemma py_min_upper (a b : Q) : py_min a b <= a.
Proof.
  unfold py_min. destruct (Qlt_bool b a) eqn:E.
  - apply Qlt_bool_iff in E. apply Qlt_le_weak, E.
  - apply Qle_refl.
Qed.

(** ** Sums and running sums *)

Lemma fold_left_Qplus_acc (l : list Q) (a : Q) :
  fold_left Qplus l a == a + fold_left Qplus l 0.
Proof.
  revert a. induction l as [| x t IH]; intro a; simpl.
  - ring.
  - rewrite (IH (a + x)), (IH (0 + x)). ring.
Qed.

Lemma series_sum_cons (x : Q) (l : list Q) :
  series_sum (x :: l) == x + series_sum l.
Proof.
  unfold series_sum. simpl. rewrite fold_left_Qplus_acc. ring.
Qed.

Lemma series_sum_nil : series_sum [] == 0.
Proof. reflexivity. Qed.

Lemma cumsum_from_length (l : list Q) (a : Q) :
  length (cumsum_from a l) = length l.
Proof.
  revert a. induction l as [| x t IH]; intro a; simpl; [reflexivity |].
  now rewrite IH.
Qed.

Lemma cumsum_from_nth (l : list Q) (a : Q) (k : nat) :
  (k < length l)%nat ->
  nth k (cumsum_from a l) 0 == a + series_sum (firstn (S k) l).
Proof.
  revert a k. induction l as [| x t IH]; intros a k Hk; simpl in Hk; [lia |].
  destruct k as [| k].
  - simpl. unfold series_sum. simpl. ring.
  - change (nth k (cumsum_from (a + x) t) 0
            == a + series_sum (x :: firstn (S k) t)).
    rewrite IH by lia. rewrite series_sum_cons. ring.
Qed.

(** ** Columns *)

Lemma zip_with_length {A B C} (f : A -> B -> C) (a : list A) (b : list B) :
  length (zip_with f a b) = Nat.min (length a) (length b).
Proof.
  revert b. induction a as [| x a IH]; intros [| y b]; simpl; auto.
Qed.

Lemma nth_map_lt {A B} (f : A -> B) (l : list A) (k : nat) (d : A) (d' : B) :
  (k < length l)%nat -> nth k (map f l) d' = f (nth k l d).
Proof.
  revert k. induction l as [| x t IH]; intros k Hk; simpl in Hk; [lia |].
  destruct k; simpl; [reflexivity | apply IH; lia].
Qed.

Lemma months_length : length months = 60%nat.
Proof. reflexivity. Qed.

Lemma months_nth (k : nat) :
  (k < 60)%nat -> nth k months 0%Z = Z.of_nat (S k).
Proof.
  intro Hk. unfold months.
  rewrite (nth_map_lt Z.of_nat (seq 1 60) k 0%nat) by (rewrite length_seq; exact Hk).
  rewrite seq_nth by exact Hk. reflexivity.
Qed.


Lemma oil_production_nth (initial_production decline_rate : Q) (k : nat) :
  (k < 60)%nat ->
  nth k (oil_production_col initial_production decline_rate) 0
  = initial_production * (1 - decline_rate) ^ Z.of_nat k.
Proof.
  intro Hk. unfold oil_production_col.
  rewrite (nth_map_lt _ months k 0%Z) by (rewrite months_length; exact Hk).
  rewrite months_nth by exact Hk.
  replace (Z.of_nat (S k) - 1)%Z with (Z.of_nat k) by lia.
  reflexivity.
Qed.

Lemma oil_production_length (initial_production decline_rate : Q) :
  length (oil_production_col initial_production decline_rate) = 60%nat.
Proof. unfold oil_production_col. now rewrite length_map. Qed.

(** Geometric decline: with a positive start and a decline fraction strictly
    between 0 and 1, each month produces strictly less than the one before. *)
Lemma oil_production_decreasing (initial_production decline_rate : Q) (k : nat) :
  0 < initial_production -> 0 < decline_rate -> decline_rate < 1 ->
  (k + 1 < 60)%nat ->
  nth (k + 1) (oil_production_col initial_production decline_rate) 0
  < nth k (oil_production_col initial_production decline_rate) 0.
Proof.
  intros Hp H0 H1 Hk.
  rewrite !oil_production_nth by lia.
  assert (Hb : 0 < 1 - decline_rate) by lra.
  assert (Hne : ~ 1 - decline_rate == 0) by lra.
  replace (Z.of_nat (k + 1)) with (Z.of_nat k + 1)%Z by lia.
  rewrite Qpower_plus by exact Hne.
  pose proof (Qpower_0_lt (1 - decline_rate) (Z.of_nat k) Hb) as Hpow.
  change ((1 - decline_rate) ^ 1) with (1 - decline_rate).
  set (w := (1 - decline_rate) ^ Z.of_nat k) in *.
  assert (Hw : 0 < initial_production * w) by (apply Qmult_lt_0_compat; assumption).
  assert (Hd : 0 < initial_production * w * decline_rate)
    by (apply Qmult_lt_0_compat; assumption).
  lra.
Qed.

(** ** What [calculate_oil_gas_model] returns *)

Lemma monthly_discount_zero_iff (discount_rate : Q) :
  1 + discount_rate / 100 / 12 == 0 <-> discount_rate == -1200.
Proof.
  split; intro H.
  - assert (E : discount_rate == (1 + discount_rate / 100 / 12) * 1200 - 1200)
      by field.
    rewrite E, H. reflexivity.
  - rewrite H. reflexivity.
Qed.

Lemma pv_factor_ok (b : Q) (l : list Z) :
  ~ b == 0 ->
  mapM (fun month => float_pow b (- month)) l
  = ok (map (fun month => b ^ (- month)) l).
Proof.
  intro Hb. induction l as [| m t IH]; [reflexivity |].
  cbn [mapM map]. rewrite IH. unfold float_pow.
  destruct (Qeq_bool b 0) eqn:E.
  - apply Qeq_bool_iff in E. contradiction.
  - reflexivity.
Qed.

Lemma pv_factor_raises (b : Q) :
  b == 0 ->
  mapM (fun month => float_pow b (- month)) months = raise ZeroDivisionError.
Proof.
  intro Hb. change months with (1%Z :: map Z.of_nat (seq 2 59)).
  cbn [mapM]. unfold float_pow at 1.
  apply Qeq_bool_iff in Hb. rewrite Hb. reflexivity.
Qed.

Lemma calculate_oil_gas_model_inv (fsolve : solver)
    (oil_price gas_price initial_production decline_rate discount_rate : Q)
    (df : DF.t) (s : Summary.t) :
  calculate_oil_gas_model fsolve oil_price gas_price initial_production
    decline_rate discount_rate = inr (df, s) ->
  ~ discount_rate == -1200 /\
  DF.Month df = months /\
  DF.Oil_Production df = oil_production_col initial_production (decline_rate / 100) /\
  DF.Gas_Production df = col_scale (DF.Oil_Production df) 6 /\
  DF.Oil_Revenue df = col_div (col_scale (DF.Oil_Production df) oil_price) 1000 /\
  DF.CapEx df = capex_schedule /\
  DF.Net_Cash_Flow df
  = net_cash_flow_col oil_price gas_price initial_production (decline_rate / 100) /\
  DF.Cumulative_Cash_Flow df = cumsum (DF.Net_Cash_Flow df) /\
  DF.PV_Factor df
  = map (fun month => (1 + discount_rate / 100 / 12) ^ (- month)) months /\
  DF.PV_Cash_Flow df = col_mul (DF.Net_Cash_Flow df) (DF.PV_Factor df) /\
  Summary.Total_Investment s = series_sum (DF.CapEx df) /\
  Summary.NPV s = series_sum (DF.PV_Cash_Flow df) /\
  Summary.Payback_Months s = payback_loop 0 (DF.Cumulative_Cash_Flow df) 60 /\
  Summary.IRR s = calculate_irr_scipy fsolve (DF.Net_Cash_Flow df).
Proof.
  unfold calculate_oil_gas_model.
  destruct (Qeq_dec (1 + discount_rate / 100 / 12) 0) as [E | E].
  - rewrite (pv_factor_raises _ E). discriminate.
  - rewrite (pv_factor_ok _ _ E). unfold bind, ok.
    intro H.
    assert (Hdf := f_equal (fun r => match r with inr p => fst p | inl _ => df end) H).
    assert (Hs := f_equal (fun r => match r with inr p => snd p | inl _ => s end) H).
    cbv beta iota delta [fst snd] in Hdf, Hs. subst df s.
    split; [rewrite <- monthly_discount_zero_iff; exact E |].
    repeat split.
Qed.

Lemma calculate_oil_gas_model_returns (fsolve : solver)
    (oil_price gas_price initial_production decline_rate discount_rate : Q) :
  ~ discount_rate == -1200 ->
  exists df s,
    calculate_oil_gas_model fsolve oil_price gas_price initial_production
      decline_rate discount_rate = inr (df, s).
Proof.
  intro Hd. rewrite <- monthly_discount_zero_iff in Hd.
  unfold calculate_oil_gas_model.
  rewrite (pv_factor_ok _ _ Hd). unfold bind, ok.
  eexists. eexists. reflexivity.
Qed.


Lemma net_cash_flow_col_length (oil_price gas_price initial_production decline_rate : Q) :
  length (net_cash_flow_col oil_price gas_price initial_production decline_rate)
  = 60%nat.
Proof. reflexivity. Qed.

Lemma capex_total : series_sum capex_schedule = 1560.
Proof. reflexivity. Qed.

(** ** The worked example and the production profile *)

(** C1.  With oil price 65, gas price 3.25, initial production 1000, decline
    rate 1.5 (a percentage: the code divides it by 100) and discount rate 10,
    the 60-month projection has oil production 1000 in month 1 and 985 in
    month 2, oil production falls strictly from each month to the next, and
    the total investment is the sum of the capex schedule, 1560, whatever
    the five parameters are. *)
Theorem C1_worked_example (fsolve : solver) :
  exists df s,
    calculate_oil_gas_model fsolve 65 3.25 1000 1.5 10 = inr (df, s) /\
    DF.Oil_Production df = oil_production_col 1000 (1.5 / 100) /\
    length (DF.Oil_Production df) = 60%nat /\
    nth 0 (DF.Oil_Production df) 0 == 1000 /\
    nth 1 (DF.Oil_Production df) 0 == 985 /\
    (forall k, (k + 1 < 60)%nat ->
       nth (k + 1) (DF.Oil_Production df) 0 < nth k (DF.Oil_Production df) 0) /\
    Summary.Total_Investment s = series_sum capex_schedule /\
    series_sum capex_schedule = 1560 /\
    (forall oil_price gas_price initial_production decline_rate discount_rate df' s',
       calculate_oil_gas_model fsolve oil_price gas_price initial_production
         decline_rate discount_rate = inr (df', s') ->
       Summary.Total_Investment s' = 1560).
Proof.
  destruct (calculate_oil_gas_model_returns fsolve 65 3.25 1000 1.5 10)
    as [df [s E]]; [lra |].
  exists df, s. split; [exact E |].
  destruct (calculate_oil_gas_model_inv _ _ _ _ _ _ _ _ E)
    as (_ & _ & Hoil & _ & _ & Hcap & _ & _ & _ & _ & Hinv & _).
  rewrite Hoil, Hinv, Hcap.
  split; [reflexivity |].
  split; [apply oil_production_length |].
  split; [vm_compute; reflexivity |].
  split; [vm_compute; reflexivity |].
  split; [intros k Hk; apply oil_production_decreasing;
          [reflexivity | reflexivity | reflexivity | exact Hk] |].
  split; [reflexivity |].
  split; [exact capex_total |].
  intros op gp ip dr disc df' s' E'.
  destruct (calculate_oil_gas_model_inv _ _ _ _ _ _ _ _ E')
    as (_ & _ & _ & _ & _ & Hcap' & _ & _ & _ & _ & Hinv' & _).
  rewrite Hinv', Hcap'. exact capex_total.
Qed.



(** ** No validation of the parameters *)



(** ** The payback period *)

Lemma payback_loop_spec (cum : list Q) (i payback_month : nat) :
  (exists k, (k < length cum)%nat /\
             0 <= nth k cum 0 /\
             (forall j, (j < k)%nat -> nth j cum 0 < 0) /\
             payback_loop i cum payback_month = (i + k + 1)%nat)
  \/ ((forall j, (j < length cum)%nat -> nth j cum 0 < 0) /\
      payback_loop i cum payback_month = payback_month).
Proof.
  revert i. induction cum as [| c rest IH]; intro i.
  - right. split; [simpl; intros j Hj; lia | reflexivity].
  - cbn [payback_loop]. destruct (Qle_bool 0 c) eqn:Hc.
    + left. exists 0%nat. apply Qle_bool_iff in Hc.
      repeat split; [simpl; lia | exact Hc | intros j Hj; lia | lia].
    + apply Qle_bool_false_iff in Hc.
      destruct (IH (S i)) as [[k (Hk & Hge & Hlt & Hp)] | [Hall Hp]].
      * left. exists (S k). repeat split.
        -- simpl. lia.
        -- exact Hge.
        -- intros [| j] Hj; [exact Hc | apply Hlt; lia].
        -- rewrite Hp. lia.
      * right. split; [| exact Hp].
        intros [| j] Hj; [exact Hc | apply Hall; simpl in Hj; lia].
Qed.

(** C7.  The cumulative column holds the running sums of the net cash flow
    over the 60 months, and the payback period is the smallest 1-based month
    whose cumulative net cash flow is non-negative; when no month of the
    horizon has a non-negative cumulative cash flow it is exactly 60. *)
Theorem C7_payback_period (fsolve : solver)
    (oil_price gas_price initial_production decline_rate discount_rate : Q)
    (df : DF.t) (s : Summary.t) :
  calculate_oil_gas_model fsolve oil_price gas_price initial_production
    decline_rate discount_rate = inr (df, s) ->
  length (DF.Cumulative_Cash_Flow df) = 60%nat /\
  (forall k, (k < 60)%nat ->
     nth k (DF.Cumulative_Cash_Flow df) 0
     == series_sum (firstn (S k) (DF.Net_Cash_Flow df))) /\
  (((1 <= Summary.Payback_Months s <= 60)%nat /\
    0 <= nth (Summary.Payback_Months s - 1) (DF.Cumulative_Cash_Flow df) 0 /\
    (forall m, (1 <= m < Summary.Payback_Months s)%nat ->
       nth (m - 1) (DF.Cumulative_Cash_Flow df) 0 < 0))
   \/
   (Summary.Payback_Months s = 60%nat /\
    (forall m, (1 <= m <= 60)%nat ->
       nth (m - 1) (DF.Cumulative_Cash_Flow df) 0 < 0))).
Proof.
  intro E.
  destruct (calculate_oil_gas_model_inv _ _ _ _ _ _ _ _ E)
    as (_ & _ & _ & _ & _ & _ & Hncf & Hcum & _ & _ & _ & _ & Hpay & _).
  assert (Hlen : length (DF.Cumulative_Cash_Flow df) = 60%nat).
  { rewrite Hcum. unfold cumsum. rewrite cumsum_from_length, Hncf.
    apply net_cash_flow_col_length. }
  split; [exact Hlen |].
  split.
  - intros k Hk. rewrite Hcum. unfold cumsum.
    rewrite cumsum_from_nth
      by (rewrite Hncf, net_cash_flow_col_length; exact Hk).
    ring.
  - rewrite Hpay.
    destruct (payback_loop_spec (DF.Cumulative_Cash_Flow df) 0 60)
      as [[k (Hk & Hge & Hlt & Hp)] | [Hall Hp]].
    + left. rewrite Hp. rewrite Hlen in Hk.
      replace (0 + k + 1 - 1)%nat with k by lia.
      split; [lia |]. split; [exact Hge |].
      intros m Hm. apply Hlt. lia.
    + right. split; [exact Hp |].
      intros m Hm. apply Hall. rewrite Hlen. lia.
Qed.

Lemma C7_witness :
  exists df s,
    calculate_oil_gas_model fsolve_gives_up 65 3.25 1000 1.5 10 = inr (df, s) /\
    length (DF.Cumulative_Cash_Flow df) = 60%nat /\
    (forall k, (k < 60)%nat ->
       nth k (DF.Cumulative_Cash_Flow df) 0
       == series_sum (firstn (S k) (DF.Net_Cash_Flow df))) /\
    (((1 <= Summary.Payback_Months s <= 60)%nat /\
      0 <= nth (Summary.Payback_Months s - 1) (DF.Cumulative_Cash_Flow df) 0 /\
      (forall m, (1 <= m < Summary.Payback_Months s)%nat ->
         nth (m - 1) (DF.Cumulative_Cash_Flow df) 0 < 0))
     \/
     (Summary.Payback_Months s = 60%nat /\
      (forall m, (1 <= m <= 60)%nat ->
         nth (m - 1) (DF.Cumulative_Cash_Flow df) 0 < 0))).
Proof.
  destruct (calculate_oil_gas_model_returns fsolve_gives_up 65 3.25 1000 1.5 10)
    as [df [s E]]; [lra |].
  exists df, s. split; [exact E |].
  exact (C7_payback_period fsolve_gives_up 65 3.25 1000 1.5 10 df s E).
Defined.

(** ** Net present value and the discount rate *)









(** ** The IRR wrapper *)

Lemma py_max_ge_r (a b : Q) : b <= py_max a b.
Proof.
  unfold py_max. destruct (Qlt_bool a b) eqn:E.
  - apply Qle_refl.
  - apply Qlt_bool_false_iff in E. exact E.
Qed.

Lemma py_min_le_r (a b : Q) : py_min a b <= b.
Proof.
  unfold py_min. destruct (Qlt_bool b a) eqn:E.
  - apply Qle_refl.
  - apply Qlt_bool_false_iff in E. exact E.
Qed.

(** C5, as the code has it.  The result of the IRR wrapper always lies in
    [-100, 1000].  It is exactly 0 when the root-finder raises; when the
    root-finder returns, converged or not, the result is its last iterate
    times 100, clamped to the range: the convergence flag is not looked at. *)
Theorem C5_irr_range_and_failure (fsolve : solver) (cash_flows : list Q) :
  -100 <= calculate_irr_scipy fsolve cash_flows /\
  calculate_irr_scipy fsolve cash_flows <= 1000 /\
  match fsolve (npv_func cash_flows) (1 # 10) with
  | FsolveRaised => calculate_irr_scipy fsolve cash_flows = 0
  | FsolveReturned x ier =>
      calculate_irr_scipy fsolve cash_flows = py_max (py_min (x * 100) 1000) (-100)
  end.
Proof.
  unfold calculate_irr_scipy.
  destruct (fsolve (npv_func cash_flows) (1 # 10)) as [| x ier].
  - repeat split; discriminate.
  - split; [apply py_max_ge_r |].
    split; [| reflexivity].
    apply py_max_upper; [apply py_min_le_r | discriminate].
Qed.

(** A root search that gives up on the stream [1] (whose NPV is never zero)
    with the iterate 0.1: the wrapper returns 10, not 0. *)
Lemma C5_counterexample :
  fsolve_gives_up (npv_func [1]) (1 # 10) = FsolveReturned (1 # 10) 5 /\
  npv_func [1] (1 # 10) == 120 # 121 /\
  calculate_irr_scipy fsolve_gives_up [1] == 10.
Proof.
  split; [reflexivity |]. split; reflexivity.
Qed.

(** A root search that raises is answered by 0. *)
Example irr_of_raising_solver :
  calculate_irr_scipy fsolve_raises [-500; 300; 300] = 0.
Proof. reflexivity. Qed.

(** ** The Monte Carlo loop *)

Lemma mc_trial_spec (fsolve : solver) (rng : Type) (normal : Q -> Q -> rng -> Q * rng)
    (base_params : Params.t) (volatility_factors : Volatility.t)
    (g g' : rng) (row : Row.t) :
  mc_trial fsolve rng normal base_params volatility_factors g = inr (row, g') ->
  sampled_within_bounds row /\
  projected_with fsolve (Params.discount_rate base_params) row.
Proof.
  unfold mc_trial.
  destruct (normal _ _ g) as [x1 g1].
  destruct (normal _ _ g1) as [x2 g2].
  destruct (normal _ _ g2) as [x3 g3].
  destruct (normal _ _ g3) as [x4 g4].
  destruct (calculate_oil_gas_model fsolve (py_max 20 x1) (py_max 1 x2)
              (py_max 100 x3) (py_max (1 # 2) (py_min 10 x4))
              (Params.discount_rate base_params)) as [e | [df s]] eqn:E;
    unfold bind, ok; [discriminate |].
  intro H. injection H as <- <-.
  split.
  - unfold sampled_within_bounds. cbn [Row.Oil_Price Row.Gas_Price
      Row.Initial_Production Row.Decline_Rate].
    repeat split; try apply py_max_lower.
    apply py_max_upper; [discriminate | apply py_min_upper].
  - exists df, s. cbn. split; [exact E |]. repeat split.
Qed.

Lemma mc_trial_returns (fsolve : solver) (rng : Type) (normal : Q -> Q -> rng -> Q * rng)
    (base_params : Params.t) (volatility_factors : Volatility.t) (g : rng) :
  ~ Params.discount_rate base_params == -1200 ->
  exists row g',
    mc_trial fsolve rng normal base_params volatility_factors g = inr (row, g').
Proof.
  intro Hd. unfold mc_trial.
  destruct (normal _ _ g) as [x1 g1].
  destruct (normal _ _ g1) as [x2 g2].
  destruct (normal _ _ g2) as [x3 g3].
  destruct (normal _ _ g3) as [x4 g4].
  destruct (calculate_oil_gas_model_returns fsolve (py_max 20 x1) (py_max 1 x2)
              (py_max 100 x3) (py_max (1 # 2) (py_min 10 x4))
              (Params.discount_rate base_params) Hd) as [df [s E]].
  rewrite E. unfold bind, ok. eexists. eexists. reflexivity.
Qed.

Lemma mc_loop_spec (fsolve : solver) (rng : Type) (normal : Q -> Q -> rng -> Q * rng)
    (base_params : Params.t) (volatility_factors : Volatility.t)
    (P : Row.t -> Prop) :
  (forall g g' row,
     mc_trial fsolve rng normal base_params volatility_factors g = inr (row, g') ->
     P row) ->
  forall (remaining : nat) (results : list Row.t) (g : rng)
         (batch : list Row.t) (g' : rng),
    mc_loop fsolve rng normal base_params volatility_factors remaining results g
    = inr (batch, g') ->
    Forall P results ->
    Forall P batch /\ length batch = (length results + remaining)%nat.
Proof.
  intros Htrial. induction remaining as [| n IH]; intros results g batch g' H Hres.
  - cbn in H. injection H as <- <-. split; [exact Hres | lia].
  - cbn [mc_loop] in H.
    destruct (mc_trial fsolve rng normal base_params volatility_factors g)
      as [e | [row g1]] eqn:E; unfold bind in H; [discriminate |].
    cbn [fst snd] in H.
    destruct (IH _ _ _ _ H) as [Hall Hlen].
    + apply Forall_app. split; [exact Hres |].
      constructor; [exact (Htrial _ _ _ E) | constructor].
    + split; [exact Hall |]. rewrite Hlen, length_app. simpl. lia.
Qed.

Lemma mc_loop_returns (fsolve : solver) (rng : Type) (normal : Q -> Q -> rng -> Q * rng)
    (base_params : Params.t) (volatility_factors : Volatility.t) :
  ~ Params.discount_rate base_params == -1200 ->
  forall (remaining : nat) (results : list Row.t) (g : rng),
  exists batch g',
    mc_loop fsolve rng normal base_params volatility_factors remaining results g
    = inr (batch, g').
Proof.
  intro Hd. induction remaining as [| n IH]; intros results g.
  - exists results, g. reflexivity.
  - cbn [mc_loop].
    destruct (mc_trial_returns fsolve rng normal base_params volatility_factors g Hd)
      as [row [g1 E]].
    rewrite E. unfold bind. cbn [fst snd]. apply IH.
Qed.

(** C6.  Every row of the batch returned by the simulation has an oil price
    of at least 20, a gas price of at least 1, an initial production of at
    least 100 and a decline rate within [0.5, 10], and records the summary of
    the projection run on those sampled parameters with the base discount
    rate, unchanged; the batch has one row per simulation. *)
Theorem C6_sampled_parameter_bounds (fsolve : solver) (rng : Type)
    (normal : Q -> Q -> rng -> Q * rng)
    (base_params : Params.t) (num_simulations : nat)
    (volatility_factors : option Volatility.t) (g g' : rng) (batch : list Row.t) :
  run_monte_carlo_simulation fsolve rng normal base_params num_simulations
    volatility_factors g = inr (batch, g') ->
  length batch = num_simulations /\
  Forall (fun row =>
            sampled_within_bounds row /\
            projected_with fsolve (Params.discount_rate base_params) row)
    batch.
Proof.
  unfold run_monte_carlo_simulation. intro H.
  destruct (mc_loop_spec fsolve rng normal base_params _
              (fun row => sampled_within_bounds row /\
                          projected_with fsolve (Params.discount_rate base_params) row)
              (fun g0 g1 row E => mc_trial_spec _ _ _ _ _ _ _ _ E)
              _ _ _ _ _ H (Forall_nil _)) as [Hall Hlen].
  split; [exact Hlen | exact Hall].
Qed.

Lemma C6_witness :
  exists batch g',
    run_monte_carlo_simulation fsolve_gives_up nat normal_low
      (Params.mk 65 3.25 1000 1.5 10) 3 None 0%nat = inr (batch, g') /\
    length batch = 3%nat /\
    Forall (fun row =>
              sampled_within_bounds row /\
              projected_with fsolve_gives_up 10 row)
      batch.
Proof.
  destruct (mc_loop_returns fsolve_gives_up nat normal_low
              (Params.mk 65 3.25 1000 1.5 10) Volatility.default
              ltac:(cbn; lra) 3 [] 0%nat) as [batch [g' E]].
  exists batch, g'. split; [exact E |].
  exact (C6_sampled_parameter_bounds fsolve_gives_up nat normal_low
           (Params.mk 65 3.25 1000 1.5 10) 3 None 0%nat g' batch E).
Defined.

(** ** The risk statistics *)

Lemma create_risk_assessment_nonempty (sqrt : Q -> Q) (mc_results : list Row.t) :
  mc_results <> [] ->
  exists r,
    create_risk_assessment sqrt mc_results = inr r /\
    Risk.Expected_NPV r = series_mean (map Row.NPV mc_results) /\
    Risk.Standard_Deviation r = series_std sqrt (map Row.NPV mc_results) /\
    Risk.Coefficient_of_Variation r
    = (if negb (Qeq_bool (Risk.Expected_NPV r) 0)
       then pf_div_pos (Risk.Standard_Deviation r) (Qabs (Risk.Expected_NPV r))
       else Inf) /\
    Risk.Risk_Adjusted_Return r
    = (if pf_gt_zero (Risk.Standard_Deviation r)
       then q_div_pf (Risk.Expected_NPV r) (Risk.Standard_Deviation r)
       else Fin 0).
Proof.
  intro Hne. destruct mc_results as [| row rest]; [contradiction |].
  unfold create_risk_assessment, column_NPV, bind, ok.
  eexists. split; [reflexivity |]. repeat split.
Qed.


(** C3, as the code has it.  On a batch of no run the aggregator fails at its
    first step, the lookup of the NPV column, with a KeyError; no dedicated
    empty-batch error exists.  On every other batch it returns its report. *)
Theorem C3_empty_batch_key_error (sqrt : Q -> Q) (mc_results : list Row.t) :
  match mc_results with
  | [] => create_risk_assessment sqrt mc_results = inl (KeyError "NPV")
  | _ :: _ => exists r, create_risk_assessment sqrt mc_results = inr r
  end.
Proof.
  destruct mc_results as [| row rest]; [reflexivity |].
  destruct (create_risk_assessment_nonempty sqrt (row :: rest)) as [r [E _]];
    [discriminate |].
  exists r. exact E.
Qed.

(** The empty batch: the failure is the KeyError of the column lookup. *)
Lemma C3_counterexample :
  create_risk_assessment sqrt_floor [] = inl (KeyError "NPV").
Proof. reflexivity. Qed.

(** C10.  On every non-empty batch the report is returned, and its
    coefficient of variation is the standard deviation of the NPV divided by
    the absolute value of the mean NPV when the mean is not zero, and is
    infinity when the mean is exactly zero. *)
Theorem C10_coefficient_of_variation (sqrt : Q -> Q) (mc_results : list Row.t) :
  mc_results <> [] ->
  exists r,
    create_risk_assessment sqrt mc_results = inr r /\
    Risk.Expected_NPV r = series_mean (map Row.NPV mc_results) /\
    Risk.Standard_Deviation r = series_std sqrt (map Row.NPV mc_results) /\
    (~ Risk.Expected_NPV r == 0 ->
     Risk.Coefficient_of_Variation r
     = pf_div_pos (Risk.Standard_Deviation r) (Qabs (Risk.Expected_NPV r))) /\
    (Risk.Expected_NPV r == 0 -> Risk.Coefficient_of_Variation r = Inf).
Proof.
  intro Hne.
  destruct (create_risk_assessment_nonempty sqrt mc_results Hne)
    as [r (E & Hmean & Hstd & Hcv & _)].
  exists r. split; [exact E |]. split; [exact Hmean |]. split; [exact Hstd |].
  rewrite Hcv. split; intro H0.
  - destruct (Qeq_bool (Risk.Expected_NPV r) 0) eqn:Eb; [| reflexivity].
    apply Qeq_bool_iff in Eb. contradiction.
  - apply Qeq_bool_iff in H0. rewrite H0. reflexivity.
Qed.

(** Two runs with NPV 1 and -1 (mean 0), and three runs with NPV 0, 3 and 6
    (mean 3, standard deviation 3). *)
Lemma C10_witness :
  (exists r,
     create_risk_assessment sqrt_floor
       [Row.mk 65 3 1000 1 1 10 30 1 1560 1; Row.mk 65 3 1000 1 (-1) 10 30 1 1560 1]
     = inr r /\
     Risk.Coefficient_of_Variation r = Inf) /\
  (exists r,
     create_risk_assessment sqrt_floor
       [Row.mk 65 3 1000 1 0 10 30 1 1560 1; Row.mk 65 3 1000 1 3 10 30 1 1560 1;
        Row.mk 65 3 1000 1 6 10 30 1 1560 1]
     = inr r /\
     pf_eq (Risk.Coefficient_of_Variation r) (Fin 1)).
Proof.
  split.
  - destruct (C10_coefficient_of_variation sqrt_floor
                [Row.mk 65 3 1000 1 1 10 30 1 1560 1;
                 Row.mk 65 3 1000 1 (-1) 10 30 1 1560 1]
                ltac:(discriminate)) as [r (E & Hmean & _ & _ & Hzero)].
    exists r. split; [exact E |].
    apply Hzero. rewrite Hmean. reflexivity.
  - destruct (C10_coefficient_of_variation sqrt_floor
                [Row.mk 65 3 1000 1 0 10 30 1 1560 1;
                 Row.mk 65 3 1000 1 3 10 30 1 1560 1;
                 Row.mk 65 3 1000 1 6 10 30 1 1560 1]
                ltac:(discriminate)) as [r (E & Hmean & Hstd & Hnz & _)].
    exists r. split; [exact E |].
    rewrite Hnz, Hstd, Hmean; [reflexivity |].
    rewrite Hmean. discriminate.
Defined.

(** ** Constant batches and the risk-adjusted return *)










(** * Further properties of the code *)

(** ** The whole table and summary *)

Lemma calculate_oil_gas_model_table (fsolve : solver)
    (oil_price gas_price initial_production decline_rate discount_rate : Q)
    (df : DF.t) (s : Summary.t) :
  calculate_oil_gas_model fsolve oil_price gas_price initial_production
    decline_rate discount_rate = inr (df, s) ->
  DF.Gas_Revenue df = col_div (col_scale (DF.Gas_Production df) gas_price) 1000 /\
  DF.Total_Revenue df = col_add (DF.Oil_Revenue df) (DF.Gas_Revenue df) /\
  DF.Operating_Expenses df = operating_expenses_col /\
  DF.Severance_Tax df = col_scale (DF.Total_Revenue df) (75 # 1000) /\
  DF.Total_OpEx df = col_add (DF.Operating_Expenses df) (DF.Severance_Tax df) /\
  DF.Net_Operating_Income df = col_sub (DF.Total_Revenue df) (DF.Total_OpEx df) /\
  DF.Net_Cash_Flow df = col_sub (DF.Net_Operating_Income df) (DF.CapEx df) /\
  Summary.Total_Revenue s = series_sum (DF.Total_Revenue df) /\
  Summary.Final_Cumulative_CF s = iloc_last (DF.Cumulative_Cash_Flow df) /\
  Summary.Peak_Production s = series_max (DF.Oil_Production df) /\
  Summary.Final_Production s = iloc_last (DF.Oil_Production df).
Proof.
  unfold calculate_oil_gas_model.
  destruct (Qeq_dec (1 + discount_rate / 100 / 12) 0) as [E | E].
  - rewrite (pv_factor_raises _ E). discriminate.
  - rewrite (pv_factor_ok _ _ E). unfold bind, ok.
    intro H.
    assert (Hdf := f_equal (fun r => match r with inr p => fst p | inl _ => df end) H).
    assert (Hs := f_equal (fun r => match r with inr p => snd p | inl _ => s end) H).
    cbv beta iota delta [fst snd] in Hdf, Hs. subst df s.
    repeat split.
Qed.

(** ** The investment grade *)

Lemma grade_label_cases (r : Q) :
  (25 < r /\ get_investment_grade r = ("🏆 EXCELLENT", "#28a745")%string) \/
  (15 < r /\ r <= 25 /\ get_investment_grade r = ("🥇 VERY GOOD", "#28a745")%string) \/
  (5 < r /\ r <= 15 /\ get_investment_grade r = ("🥈 GOOD", "#ffc107")%string) \/
  (0 < r /\ r <= 5 /\ get_investment_grade r = ("🥉 ACCEPTABLE", "#ffc107")%string) \/
  (r <= 0 /\ get_investment_grade r = ("❌ POOR", "#dc3545")%string).
Proof.
  unfold get_investment_grade.
  destruct (Qlt_bool 25 r) eqn:E1.
  { apply Qlt_bool_iff in E1. left. split; [exact E1 | reflexivity]. }
  apply Qlt_bool_false_iff in E1.
  destruct (Qlt_bool 15 r) eqn:E2.
  { apply Qlt_bool_iff in E2. right. left. repeat split; assumption. }
  apply Qlt_bool_false_iff in E2.
  destruct (Qlt_bool 5 r) eqn:E3.
  { apply Qlt_bool_iff in E3. right. right. left. repeat split; assumption. }
  apply Qlt_bool_false_iff in E3.
  destruct (Qlt_bool 0 r) eqn:E4.
  { apply Qlt_bool_iff in E4. right. right. right. left. repeat split; assumption. }
  apply Qlt_bool_false_iff in E4.
  right. right. right. right. split; [exact E4 | reflexivity].
Qed.

(** X1.  The grade is decided by the interval of the NPV return: EXCELLENT
    above 25, VERY GOOD in (15, 25], GOOD in (5, 15], ACCEPTABLE in (0, 5],
    POOR at or below 0; the colour is green exactly above 15, red exactly at
    or below 0 and amber in between. *)
Theorem X1_investment_grade_intervals (r : Q) :
  (fst (get_investment_grade r) = "🏆 EXCELLENT"%string <-> 25 < r) /\
  (fst (get_investment_grade r) = "🥇 VERY GOOD"%string <-> 15 < r /\ r <= 25) /\
  (fst (get_investment_grade r) = "🥈 GOOD"%string <-> 5 < r /\ r <= 15) /\
  (fst (get_investment_grade r) = "🥉 ACCEPTABLE"%string <-> 0 < r /\ r <= 5) /\
  (fst (get_investment_grade r) = "❌ POOR"%string <-> r <= 0) /\
  (snd (get_investment_grade r) = "#28a745"%string <-> 15 < r) /\
  (snd (get_investment_grade r) = "#ffc107"%string <-> 0 < r /\ r <= 15) /\
  (snd (get_investment_grade r) = "#dc3545"%string <-> r <= 0).
Proof.
  destruct (grade_label_cases r)
    as [[H1 ->] | [(H1 & H2 & ->) | [(H1 & H2 & ->) | [(H1 & H2 & ->) | [H1 ->]]]]];
    cbn [fst snd];
    repeat split; intros; try discriminate; try reflexivity; try lra.
Qed.

(** X2.  For every projection the NPV return is the NPV over the fixed total
    investment of 1560, so the grade is POOR exactly when the NPV is not
    positive and EXCELLENT exactly when the NPV exceeds 390. *)
Theorem X2_grade_of_projection (fsolve : solver)
    (oil_price gas_price initial_production decline_rate discount_rate : Q)
    (df : DF.t) (s : Summary.t) :
  calculate_oil_gas_model fsolve oil_price gas_price initial_production
    decline_rate discount_rate = inr (df, s) ->
  npv_return s == Summary.NPV s * (100 # 1560) /\
  (fst (get_investment_grade (npv_return s)) = "❌ POOR"%string
   <-> Summary.NPV s <= 0) /\
  (fst (get_investment_grade (npv_return s)) = "🏆 EXCELLENT"%string
   <-> 390 < Summary.NPV s).
Proof.
  intro E.
  destruct (calculate_oil_gas_model_inv _ _ _ _ _ _ _ _ E)
    as (_ & _ & _ & _ & _ & Hcap & _ & _ & _ & _ & Hinv & _).
  assert (Hret : npv_return s == Summary.NPV s * (100 # 1560)).
  { unfold npv_return. rewrite Hinv, Hcap, capex_total. field. }
  split; [exact Hret |].
  destruct (grade_label_cases (npv_return s))
    as [[H1 ->] | [(H1 & H2 & ->) | [(H1 & H2 & ->) | [(H1 & H2 & ->) | [H1 ->]]]]];
    cbn [fst]; rewrite Hret in *;
    repeat split; intros; try discriminate; try reflexivity; try lra.
Qed.

Lemma X2_witness :
  exists df s,
    calculate_oil_gas_model fsolve_gives_up 65 3.25 1000 1.5 10 = inr (df, s) /\
    npv_return s == Summary.NPV s * (100 # 1560) /\
    (fst (get_investment_grade (npv_return s)) = "❌ POOR"%string
     <-> Summary.NPV s <= 0) /\
    (fst (get_investment_grade (npv_return s)) = "🏆 EXCELLENT"%string
     <-> 390 < Summary.NPV s).
Proof.
  destruct (calculate_oil_gas_model_returns fsolve_gives_up 65 3.25 1000 1.5 10)
    as [df [s E]]; [lra |].
  exists df, s. split; [exact E |].
  exact (X2_grade_of_projection fsolve_gives_up 65 3.25 1000 1.5 10 df s E).
Defined.

(** ** Rows of the monthly table *)

Lemma nth_zip_with {A B C} (f : A -> B -> C) (a : list A) (b : list B)
    (k : nat) (da : A) (db : B) (dc : C) :
  (k < length a)%nat -> (k < length b)%nat ->
  nth k (zip_with f a b) dc = f (nth k a da) (nth k b db).
Proof.
  revert b k. induction a as [| x a IH]; intros [| y b] k Ha Hb;
    simpl in Ha, Hb; try lia.
  destruct k; simpl; [reflexivity | apply IH; lia].
Qed.

Lemma capex_schedule_length : length capex_schedule = 60%nat.
Proof. reflexivity. Qed.

Lemma operating_expenses_length : length operating_expenses_col = 60%nat.
Proof. reflexivity. Qed.

Lemma operating_expenses_nth (k : nat) :
  (k < 60)%nat ->
  nth k operating_expenses_col 0
  = base_opex * (1 + cost_escalation / 12) ^ Z.of_nat k.
Proof.
  intro Hk. unfold operating_expenses_col.
  rewrite (nth_map_lt _ months k 0%Z) by (rewrite months_length; exact Hk).
  rewrite months_nth by exact Hk.
  replace (Z.of_nat (S k) - 1)%Z with (Z.of_nat k) by lia.
  reflexivity.
Qed.

Lemma table_lengths (fsolve : solver)
    (oil_price gas_price initial_production decline_rate discount_rate : Q)
    (df : DF.t) (s : Summary.t) :
  calculate_oil_gas_model fsolve oil_price gas_price initial_production
    decline_rate discount_rate = inr (df, s) ->
  length (DF.Oil_Production df) = 60%nat /\
  length (DF.Gas_Production df) = 60%nat /\
  length (DF.Oil_Revenue df) = 60%nat /\
  length (DF.Gas_Revenue df) = 60%nat /\
  length (DF.Total_Revenue df) = 60%nat /\
  length (DF.Operating_Expenses df) = 60%nat /\
  length (DF.Severance_Tax df) = 60%nat /\
  length (DF.Total_OpEx df) = 60%nat /\
  length (DF.Net_Operating_Income df) = 60%nat /\
  length (DF.CapEx df) = 60%nat /\
  length (DF.Net_Cash_Flow df) = 60%nat /\
  length (DF.Cumulative_Cash_Flow df) = 60%nat /\
  length (DF.PV_Factor df) = 60%nat /\
  length (DF.PV_Cash_Flow df) = 60%nat.
Proof.
  intro E.
  destruct (calculate_oil_gas_model_inv _ _ _ _ _ _ _ _ E)
    as (_ & _ & Hoil & Hgas & Horev & Hcap & _ & Hcum & Hpvf & Hpv & _).
  destruct (calculate_oil_gas_model_table _ _ _ _ _ _ _ _ E)
    as (Hgrev & Htot & Hopex & Hsev & Htopex & Hnoi & Hncf & _).
  assert (L1 : length (DF.Oil_Production df) = 60%nat)
    by (rewrite Hoil; apply oil_production_length).
  assert (L2 : length (DF.Gas_Production df) = 60%nat)
    by (rewrite Hgas; unfold col_scale; rewrite length_map; exact L1).
  assert (L3 : length (DF.Oil_Revenue df) = 60%nat)
    by (rewrite Horev; unfold col_div, col_scale; rewrite !length_map; exact L1).
  assert (L4 : length (DF.Gas_Revenue df) = 60%nat)
    by (rewrite Hgrev; unfold col_div, col_scale; rewrite !length_map; exact L2).
  assert (L5 : length (DF.Total_Revenue df) = 60%nat)
    by (rewrite Htot; unfold col_add; rewrite zip_with_length, L3, L4; reflexivity).
  assert (L6 : length (DF.Operating_Expenses df) = 60%nat)
    by (rewrite Hopex; apply operating_expenses_length).
  assert (L7 : length (DF.Severance_Tax df) = 60%nat)
    by (rewrite Hsev; unfold col_scale; rewrite length_map; exact L5).
  assert (L8 : length (DF.Total_OpEx df) = 60%nat)
    by (rewrite Htopex; unfold col_add; rewrite zip_with_length, L6, L7; reflexivity).
  assert (L9 : length (DF.Net_Operating_Income df) = 60%nat)
    by (rewrite Hnoi; unfold col_sub; rewrite zip_with_length, L5, L8; reflexivity).
  assert (L10 : length (DF.CapEx df) = 60%nat)
    by (rewrite Hcap; apply capex_schedule_length).
  assert (L11 : length (DF.Net_Cash_Flow df) = 60%nat)
    by (rewrite Hncf; unfold col_sub; rewrite zip_with_length, L9, L10; reflexivity).
  assert (L12 : length (DF.Cumulative_Cash_Flow df) = 60%nat)
    by (rewrite Hcum; unfold cumsum; rewrite cumsum_from_length; exact L11).
  assert (L13 : length (DF.PV_Factor df) = 60%nat)
    by (rewrite Hpvf, length_map; apply months_length).
  assert (L14 : length (DF.PV_Cash_Flow df) = 60%nat)
    by (rewrite Hpv; unfold col_mul; rewrite zip_with_length, L11, L13; reflexivity).
  repeat split; assumption.
Qed.

Lemma monthly_row_identities (fsolve : solver)
    (oil_price gas_price initial_production decline_rate discount_rate : Q)
    (df : DF.t) (s : Summary.t) (k : nat) :
  calculate_oil_gas_model fsolve oil_price gas_price initial_production
    decline_rate discount_rate = inr (df, s) ->
  (k < 60)%nat ->
  nth k (DF.Month df) 0%Z = Z.of_nat (k + 1) /\
  nth k (DF.Oil_Revenue df) 0 = nth k (DF.Oil_Production df) 0 * oil_price / 1000 /\
  nth k (DF.Gas_Revenue df) 0 = nth k (DF.Gas_Production df) 0 * gas_price / 1000 /\
  nth k (DF.Total_Revenue df) 0
  = nth k (DF.Oil_Revenue df) 0 + nth k (DF.Gas_Revenue df) 0 /\
  nth k (DF.Operating_Expenses df) 0 = 15 * (1 + (25 # 1000) / 12) ^ Z.of_nat k /\
  nth k (DF.Severance_Tax df) 0 = nth k (DF.Total_Revenue df) 0 * (75 # 1000) /\
  nth k (DF.Total_OpEx df) 0
  = nth k (DF.Operating_Expenses df) 0 + nth k (DF.Severance_Tax df) 0 /\
  nth k (DF.Net_Operating_Income df) 0
  = nth k (DF.Total_Revenue df) 0 - nth k (DF.Total_OpEx df) 0 /\
  nth k (DF.Net_Cash_Flow df) 0
  = nth k (DF.Net_Operating_Income df) 0 - nth k (DF.CapEx df) 0 /\
  nth k (DF.PV_Factor df) 0
  = (1 + discount_rate / 100 / 12) ^ (- Z.of_nat (k + 1)) /\
  nth k (DF.PV_Cash_Flow df) 0
  = nth k (DF.Net_Cash_Flow df) 0 * nth k (DF.PV_Factor df) 0.
Proof.
  intros E Hk.
  destruct (table_lengths _ _ _ _ _ _ _ _ E)
    as (L1 & L2 & L3 & L4 & L5 & L6 & L7 & L8 & L9 & L10 & L11 & L12 & L13 & L14).
  destruct (calculate_oil_gas_model_inv _ _ _ _ _ _ _ _ E)
    as (_ & Hm & _ & _ & Horev & _ & _ & _ & Hpvf & Hpv & _).
  destruct (calculate_oil_gas_model_table _ _ _ _ _ _ _ _ E)
    as (Hgrev & Htot & Hopex & Hsev & Htopex & Hnoi & Hncf & _).
  split.
  { rewrite Hm, months_nth by exact Hk. f_equal. lia. }
  split.
  { rewrite Horev. unfold col_div, col_scale.
    rewrite (nth_map_lt _ _ k 0) by (rewrite length_map, L1; exact Hk).
    rewrite (nth_map_lt _ _ k 0) by (rewrite L1; exact Hk). reflexivity. }
  split.
  { rewrite Hgrev. unfold col_div, col_scale.
    rewrite (nth_map_lt _ _ k 0) by (rewrite length_map, L2; exact Hk).
    rewrite (nth_map_lt _ _ k 0) by (rewrite L2; exact Hk). reflexivity. }
  split.
  { rewrite Htot at 1. unfold col_add.
    apply nth_zip_with; [rewrite L3 | rewrite L4]; exact Hk. }
  split.
  { rewrite Hopex. apply operating_expenses_nth. exact Hk. }
  split.
  { rewrite Hsev at 1. unfold col_scale.
    rewrite (nth_map_lt _ _ k 0) by (rewrite L5; exact Hk). reflexivity. }
  split.
  { rewrite Htopex at 1. unfold col_add.
    apply nth_zip_with; [rewrite L6 | rewrite L7]; exact Hk. }
  split.
  { rewrite Hnoi at 1. unfold col_sub.
    apply nth_zip_with; [rewrite L5 | rewrite L8]; exact Hk. }
  split.
  { rewrite Hncf at 1. unfold col_sub.
    apply nth_zip_with; [rewrite L9 | rewrite L10]; exact Hk. }
  split.
  { rewrite Hpvf.
    rewrite (nth_map_lt _ months k 0%Z) by (rewrite months_length; exact Hk).
    rewrite months_nth by exact Hk. do 2 f_equal. lia. }
  rewrite Hpv at 1. unfold col_mul.
  apply nth_zip_with; [rewrite L11 | rewrite L13]; exact Hk.
Qed.



(** ** Totals of the projection *)

Lemma last_as_nth (l : list Q) (d : Q) :
  l <> [] -> last l d = nth (length l - 1) l d.
Proof.
  induction l as [| x t IH]; intro Hne; [contradiction |].
  destruct t as [| y t']; [reflexivity |].
  change (last (x :: y :: t') d) with (last (y :: t') d).
  rewrite IH by discriminate. simpl. rewrite Nat.sub_0_r. reflexivity.
Qed.

Lemma series_sum_col_add (a b : list Q) :
  length a = length b ->
  series_sum (col_add a b) == series_sum a + series_sum b.
Proof.
  revert b. induction a as [| x a IH]; intros [| y b] Hlen;
    simpl in Hlen; try discriminate.
  - unfold col_add, series_sum. simpl. ring.
  - unfold col_add in *. cbn [zip_with].
    rewrite !series_sum_cons, IH by lia. ring.
Qed.

Lemma series_sum_col_sub (a b : list Q) :
  length a = length b ->
  series_sum (col_sub a b) == series_sum a - series_sum b.
Proof.
  revert b. induction a as [| x a IH]; intros [| y b] Hlen;
    simpl in Hlen; try discriminate.
  - unfold col_sub, series_sum. simpl. ring.
  - unfold col_sub in *. cbn [zip_with].
    rewrite !series_sum_cons, IH by lia. ring.
Qed.

Lemma final_cumulative_sum (fsolve : solver)
    (oil_price gas_price initial_production decline_rate discount_rate : Q)
    (df : DF.t) (s : Summary.t) :
  calculate_oil_gas_model fsolve oil_price gas_price initial_production
    decline_rate discount_rate = inr (df, s) ->
  Summary.Final_Cumulative_CF s == series_sum (DF.Net_Cash_Flow df).
Proof.
  intro E.
  destruct (table_lengths _ _ _ _ _ _ _ _ E)
    as (_ & _ & _ & _ & _ & _ & _ & _ & _ & _ & L11 & L12 & _).
  destruct (calculate_oil_gas_model_inv _ _ _ _ _ _ _ _ E)
    as (_ & _ & _ & _ & _ & _ & _ & Hcum & _).
  destruct (calculate_oil_gas_model_table _ _ _ _ _ _ _ _ E)
    as (_ & _ & _ & _ & _ & _ & _ & _ & Hfin & _).
  rewrite Hfin. unfold iloc_last.
  rewrite last_as_nth
    by (intro H0; rewrite H0 in L12; discriminate L12).
  rewrite L12. rewrite Hcum. unfold cumsum.
  rewrite cumsum_from_nth by (rewrite L11; lia).
  change (S (60 - 1)) with 60%nat.
  rewrite <- L11 at 1. rewrite firstn_all. ring.
Qed.

(** X4.  The final cumulative cash flow is the sum of the 60 net cash flows,
    which is the total net operating income less the total investment. *)
Theorem X4_final_cumulative_is_total (fsolve : solver)
    (oil_price gas_price initial_production decline_rate discount_rate : Q)
    (df : DF.t) (s : Summary.t) :
  calculate_oil_gas_model fsolve oil_price gas_price initial_production
    decline_rate discount_rate = inr (df, s) ->
  Summary.Final_Cumulative_CF s == series_sum (DF.Net_Cash_Flow df) /\
  Summary.Final_Cumulative_CF s
  == series_sum (DF.Net_Operating_Income df) - Summary.Total_Investment s.
Proof.
  intro E.
  destruct (table_lengths _ _ _ _ _ _ _ _ E)
    as (_ & _ & _ & _ & _ & _ & _ & _ & L9 & L10 & L11 & L12 & _).
  destruct (calculate_oil_gas_model_inv _ _ _ _ _ _ _ _ E)
    as (_ & _ & _ & _ & _ & _ & _ & Hcum & _ & _ & Hinv & _).
  destruct (calculate_oil_gas_model_table _ _ _ _ _ _ _ _ E)
    as (_ & _ & _ & _ & _ & _ & Hncf & _ & Hfin & _).
  assert (Hsum := final_cumulative_sum _ _ _ _ _ _ _ _ E).
  split; [exact Hsum |].
  rewrite Hsum, Hinv. rewrite Hncf at 1.
  apply series_sum_col_sub. rewrite L9, L10. reflexivity.
Qed.

Lemma X4_witness :
  exists df s,
    calculate_oil_gas_model fsolve_gives_up 65 3.25 1000 1.5 10 = inr (df, s) /\
    Summary.Final_Cumulative_CF s == series_sum (DF.Net_Cash_Flow df) /\
    Summary.Final_Cumulative_CF s
    == series_sum (DF.Net_Operating_Income df) - Summary.Total_Investment s.
Proof.
  destruct (calculate_oil_gas_model_returns fsolve_gives_up 65 3.25 1000 1.5 10)
    as [df [s E]]; [lra |].
  exists df, s. split; [exact E |].
  exact (X4_final_cumulative_is_total fsolve_gives_up 65 3.25 1000 1.5 10 df s E).
Defined.

(** X5.  The revenue shares shown on the page add up to 100 percent whenever
    the total revenue is not zero. *)
Theorem X5_revenue_shares_sum_to_100 (fsolve : solver)
    (oil_price gas_price initial_production decline_rate discount_rate : Q)
    (df : DF.t) (s : Summary.t) :
  calculate_oil_gas_model fsolve oil_price gas_price initial_production
    decline_rate discount_rate = inr (df, s) ->
  ~ Summary.Total_Revenue s == 0 ->
  oil_percentage df s + gas_percentage df s == 100.
Proof.
  intros E Hnz.
  destruct (table_lengths _ _ _ _ _ _ _ _ E) as (_ & _ & L3 & L4 & _).
  destruct (calculate_oil_gas_model_table _ _ _ _ _ _ _ _ E)
    as (_ & Htot & _ & _ & _ & _ & _ & Hrev & _).
  assert (Hsum : Summary.Total_Revenue s
                 == series_sum (DF.Oil_Revenue df) + series_sum (DF.Gas_Revenue df)).
  { rewrite Hrev, Htot. apply series_sum_col_add. rewrite L3, L4. reflexivity. }
  unfold oil_percentage, gas_percentage.
  set (o := series_sum (DF.Oil_Revenue df)) in *.
  set (g := series_sum (DF.Gas_Revenue df)) in *.
  set (t := Summary.Total_Revenue s) in *.
  assert (Ht : (o / t) * 100 + (g / t) * 100 == ((o + g) / t) * 100) by (field; exact Hnz).
  rewrite Ht, <- Hsum. field. exact Hnz.
Qed.

Lemma series_sum_positive (l : list Q) :
  l <> [] -> Forall (fun v => 0 < v) l -> 0 < series_sum l.
Proof.
  intros Hne Hall. induction Hall as [| x t Hx Ht IH]; [contradiction |].
  rewrite series_sum_cons.
  destruct t as [| y t'].
  - rewrite series_sum_nil. lra.
  - assert (0 < series_sum (y :: t')) by (apply IH; discriminate). lra.
Qed.

Lemma Forall_pos_of_bool (l : list Q) :
  forallb (Qlt_bool 0) l = true -> Forall (fun v => 0 < v) l.
Proof.
  intro H. apply Forall_forall. intros x Hx.
  apply Qlt_bool_iff. exact (proj1 (forallb_forall _ _) H x Hx).
Qed.

Lemma X5_witness :
  exists df s,
    calculate_oil_gas_model fsolve_gives_up 65 3.25 1000 1.5 10 = inr (df, s) /\
    oil_percentage df s + gas_percentage df s == 100.
Proof.
  destruct (calculate_oil_gas_model_returns fsolve_gives_up 65 3.25 1000 1.5 10)
    as [df [s E]]; [lra |].
  exists df, s. split; [exact E |].
  apply (X5_revenue_shares_sum_to_100 fsolve_gives_up 65 3.25 1000 1.5 10 df s E).
  destruct (calculate_oil_gas_model_inv _ _ _ _ _ _ _ _ E)
    as (_ & _ & Hoil & Hgas & Horev & _).
  destruct (calculate_oil_gas_model_table _ _ _ _ _ _ _ _ E)
    as (Hgrev & Htot & _ & _ & _ & _ & _ & Hrev & _).
  assert (Hpos : 0 < Summary.Total_Revenue s).
  { rewrite Hrev, Htot, Hgrev, Horev, Hgas, Hoil.
    apply series_sum_positive.
    - discriminate.
    - apply Forall_pos_of_bool. vm_compute. reflexivity. }
  intro H0. rewrite H0 in Hpos. discriminate Hpos.
Defined.

(** ** Peak and final production *)

Lemma Qpower_nat_le_1 (b : Q) (n : nat) :
  0 <= b -> b <= 1 -> 0 <= b ^ Z.of_nat n /\ b ^ Z.of_nat n <= 1.
Proof.
  intros H0 H1. induction n as [| n [IH0 IH1]].
  - simpl. split; discriminate.
  - rewrite Nat2Z.inj_succ. unfold Z.succ.
    rewrite Qpower_plus' by lia.
    change (b ^ 1) with b.
    split.
    + apply Qmult_le_0_compat; assumption.
    + assert (H : b ^ Z.of_nat n * b <= 1 * 1)
        by (apply Qmult_le_compat_nonneg; split; assumption).
      lra.
Qed.

Lemma series_max_head (x : Q) (t : list Q) :
  Forall (fun y => y <= x) t -> series_max (x :: t) = x.
Proof.
  unfold series_max. induction 1 as [| y t Hy Ht IH]; [reflexivity |].
  cbn [fold_left].
  assert (Hf : Qlt_bool x y = false) by (apply Qlt_bool_false_iff; exact Hy).
  rewrite Hf. exact IH.
Qed.

Lemma oil_production_bounded (initial_production decline_rate : Q) (y : Q) :
  0 <= initial_production -> 0 <= decline_rate -> decline_rate <= 1 ->
  In y (oil_production_col initial_production decline_rate) ->
  y <= initial_production.
Proof.
  intros Hp H0 H1 Hin.
  destruct (In_nth _ _ 0 Hin) as [k [Hk Hy]].
  rewrite oil_production_length in Hk.
  rewrite oil_production_nth in Hy by exact Hk. subst y.
  destruct (Qpower_nat_le_1 (1 - decline_rate) k) as [Hb0 Hb1]; [lra | lra |].
  set (w := (1 - decline_rate) ^ Z.of_nat k) in *.
  assert (H : 0 <= initial_production * (1 - w))
    by (apply Qmult_le_0_compat; lra).
  lra.
Qed.

(** X6.  With a non-negative initial production and a decline rate between
    0 and 100 percent, the peak production is the initial production (the
    first month), the final production is the initial production times
    [(1 - decline_rate/100) ^ 59], and the final production does not exceed
    the peak. *)
Theorem X6_peak_and_final_production (fsolve : solver)
    (oil_price gas_price initial_production decline_rate discount_rate : Q)
    (df : DF.t) (s : Summary.t) :
  0 <= initial_production -> 0 <= decline_rate -> decline_rate <= 100 ->
  calculate_oil_gas_model fsolve oil_price gas_price initial_production
    decline_rate discount_rate = inr (df, s) ->
  Summary.Peak_Production s == initial_production /\
  Summary.Final_Production s
  = initial_production * (1 - decline_rate / 100) ^ 59 /\
  Summary.Final_Production s <= Summary.Peak_Production s.
Proof.
  intros Hp H0 H1 E.
  destruct (calculate_oil_gas_model_inv _ _ _ _ _ _ _ _ E) as (_ & _ & Hoil & _).
  destruct (calculate_oil_gas_model_table _ _ _ _ _ _ _ _ E)
    as (_ & _ & _ & _ & _ & _ & _ & _ & _ & Hpeak & Hfinal).
  assert (Hd0 : 0 <= decline_rate / 100)
    by (assert (decline_rate / 100 == decline_rate * (1 # 100)) by field; lra).
  assert (Hd1 : decline_rate / 100 <= 1)
    by (assert (decline_rate / 100 == decline_rate * (1 # 100)) by field; lra).
  assert (Hbound := oil_production_bounded initial_production (decline_rate / 100)).
  assert (Hfin : Summary.Final_Production s
                 = initial_production * (1 - decline_rate / 100) ^ 59).
  { rewrite Hfinal, Hoil. unfold iloc_last.
    rewrite last_as_nth
      by (intro H; apply (f_equal (@length Q)) in H;
          rewrite oil_production_length in H; discriminate H).
    rewrite oil_production_length.
    rewrite oil_production_nth by lia. reflexivity. }
  assert (Hpk : Summary.Peak_Production s == initial_production).
  { rewrite Hpeak, Hoil.
    remember (oil_production_col initial_production (decline_rate / 100)) as col eqn:Hcol.
    assert (Hhead : nth 0 col 0 = initial_production * (1 - decline_rate / 100) ^ 0)
      by (rewrite Hcol; apply (oil_production_nth _ _ 0); lia).
    assert (Hlen : length col = 60%nat)
      by (rewrite Hcol; apply oil_production_length).
    destruct col as [| x t]; [discriminate Hlen |].
    simpl in Hhead.
    assert (Hx : x == initial_production) by (rewrite Hhead; ring).
    rewrite series_max_head; [exact Hx |].
    apply Forall_forall. intros y Hy. rewrite Hx.
    apply Hbound; try assumption. right. exact Hy. }
  split; [exact Hpk |]. split; [exact Hfin |].
  rewrite Hpk, Hfin.
  destruct (Qpower_nat_le_1 (1 - decline_rate / 100) 59) as [Hb0 Hb1]; [lra | lra |].
  change (Z.of_nat 59) with 59%Z in *.
  set (w := (1 - decline_rate / 100) ^ 59) in *.
  assert (H : 0 <= initial_production * (1 - w))
    by (apply Qmult_le_0_compat; lra).
  lra.
Qed.

Lemma X6_witness :
  exists df s,
    calculate_oil_gas_model fsolve_gives_up 65 3.25 1000 1.5 10 = inr (df, s) /\
    Summary.Peak_Production s == 1000 /\
    Summary.Final_Production s = 1000 * (1 - 1.5 / 100) ^ 59 /\
    Summary.Final_Production s <= Summary.Peak_Production s.
Proof.
  destruct (calculate_oil_gas_model_returns fsolve_gives_up 65 3.25 1000 1.5 10)
    as [df [s E]]; [lra |].
  exists df, s. split; [exact E |].
  apply (X6_peak_and_final_production fsolve_gives_up 65 3.25 1000 1.5 10 df s);
    [discriminate | discriminate | discriminate | exact E].
Defined.

(** ** The NPV against the undiscounted total and against [npv_func] *)

Lemma series_sum_col_mul_ones (l : list Q) (f : Z -> Q) (ms : list Z) :
  (forall m, f m == 1) ->
  (length l <= length ms)%nat ->
  series_sum (col_mul l (map f ms)) == series_sum l.
Proof.
  intro Hf. revert ms. induction l as [| x l IH]; intros ms Hlen.
  - reflexivity.
  - destruct ms as [| m ms]; [simpl in Hlen; lia |].
    simpl in Hlen. unfold col_mul in *. cbn [map zip_with].
    rewrite !series_sum_cons, IH by lia. rewrite Hf. ring.
Qed.

(** X7.  At a discount rate of 0 nothing is discounted: the NPV is the final
    cumulative cash flow. *)
Theorem X7_npv_at_zero_discount (fsolve : solver)
    (oil_price gas_price initial_production decline_rate discount_rate : Q)
    (df : DF.t) (s : Summary.t) :
  discount_rate == 0 ->
  calculate_oil_gas_model fsolve oil_price gas_price initial_production
    decline_rate discount_rate = inr (df, s) ->
  Summary.NPV s == Summary.Final_Cumulative_CF s.
Proof.
  intros Hz E.
  destruct (calculate_oil_gas_model_inv _ _ _ _ _ _ _ _ E)
    as (_ & _ & _ & _ & _ & _ & Hncf & _ & Hpvf & Hpv & _ & Hnpv & _).
  rewrite (final_cumulative_sum _ _ _ _ _ _ _ _ E).
  rewrite Hnpv, Hpv, Hpvf.
  apply series_sum_col_mul_ones.
  - intro m.
    assert (Hb : 1 + discount_rate / 100 / 12 == 1) by (rewrite Hz; reflexivity).
    rewrite Hb. apply Qpower_1.
  - rewrite Hncf, net_cash_flow_col_length, months_length. lia.
Qed.

Lemma X7_witness :
  exists df s,
    calculate_oil_gas_model fsolve_gives_up 65 3.25 1000 1.5 0 = inr (df, s) /\
    Summary.NPV s == Summary.Final_Cumulative_CF s.
Proof.
  destruct (calculate_oil_gas_model_returns fsolve_gives_up 65 3.25 1000 1.5 0)
    as [df [s E]]; [lra |].
  exists df, s. split; [exact E |].
  apply (X7_npv_at_zero_discount fsolve_gives_up 65 3.25 1000 1.5 0 df s);
    [reflexivity | exact E].
Defined.

Lemma npv_terms_as_col_mul (rate : Q) (flows : list Q) (start : nat) :
  series_sum (npv_terms rate (Z.of_nat start) flows)
  == series_sum
       (col_mul flows
          (map (fun month => (1 + rate / 12) ^ (- month))
             (map Z.of_nat (seq (S start) (length flows))))).
Proof.
  revert start. induction flows as [| cf rest IH]; intro start.
  - reflexivity.
  - cbn [npv_terms length seq map]. unfold col_mul in *. cbn [zip_with].
    rewrite !series_sum_cons.
    replace (Z.of_nat start + 1)%Z with (Z.of_nat (S start)) by lia.
    rewrite (IH (S start)). rewrite Qpower_opp. unfold Qdiv. reflexivity.
Qed.

(** X8.  The reported NPV is the IRR objective [npv_func] of the net cash
    flows evaluated at the discount rate (as a fraction): the two NPV
    formulas of the code agree. *)
Theorem X8_npv_is_npv_func_at_discount_rate (fsolve : solver)
    (oil_price gas_price initial_production decline_rate discount_rate : Q)
    (df : DF.t) (s : Summary.t) :
  calculate_oil_gas_model fsolve oil_price gas_price initial_production
    decline_rate discount_rate = inr (df, s) ->
  Summary.NPV s == npv_func (DF.Net_Cash_Flow df) (discount_rate / 100).
Proof.
  intro E.
  destruct (calculate_oil_gas_model_inv _ _ _ _ _ _ _ _ E)
    as (_ & _ & _ & _ & _ & _ & Hncf & _ & Hpvf & Hpv & _ & Hnpv & _).
  rewrite Hnpv, Hpv, Hpvf. unfold npv_func.
  change 0%Z with (Z.of_nat 0).
  rewrite npv_terms_as_col_mul.
  rewrite Hncf, net_cash_flow_col_length. reflexivity.
Qed.

Lemma X8_witness :
  exists df s,
    calculate_oil_gas_model fsolve_gives_up 65 3.25 1000 1.5 10 = inr (df, s) /\
    Summary.NPV s == npv_func (DF.Net_Cash_Flow df) (10 / 100).
Proof.
  destruct (calculate_oil_gas_model_returns fsolve_gives_up 65 3.25 1000 1.5 10)
    as [df [s E]]; [lra |].
  exists df, s. split; [exact E |].
  exact (X8_npv_is_npv_func_at_discount_rate fsolve_gives_up 65 3.25 1000 1.5 10 df s E).
Defined.

(** ** Better parameters never hurt *)

Lemma Qpower_nat_le_compat (a b : Q) (n : nat) :
  0 <= a -> a <= b -> 0 <= a ^ Z.of_nat n /\ a ^ Z.of_nat n <= b ^ Z.of_nat n.
Proof.
  intros H0 Hab. induction n as [| n [IH0 IH1]].
  - simpl. split; discriminate.
  - rewrite Nat2Z.inj_succ. unfold Z.succ.
    rewrite !Qpower_plus' by lia.
    change (a ^ 1) with a. change (b ^ 1) with b.
    split.
    + apply Qmult_le_0_compat; assumption.
    + apply Qmult_le_compat_nonneg; split; assumption.
Qed.

Lemma total_revenue_closed_form (fsolve : solver)
    (oil_price gas_price initial_production decline_rate discount_rate : Q)
    (df : DF.t) (s : Summary.t) (k : nat) :
  calculate_oil_gas_model fsolve oil_price gas_price initial_production
    decline_rate discount_rate = inr (df, s) ->
  (k < 60)%nat ->
  nth k (DF.Total_Revenue df) 0
  == initial_production * (1 - decline_rate / 100) ^ Z.of_nat k
     * (oil_price + 6 * gas_price) / 1000.
Proof.
  intros E Hk.
  destruct (monthly_row_identities _ _ _ _ _ _ _ _ k E Hk)
    as (_ & Horev & Hgrev & Htot & _).
  destruct (calculate_oil_gas_model_inv _ _ _ _ _ _ _ _ E) as (_ & _ & Hoil & Hgas & _).
  rewrite Htot, Horev, Hgrev, Hgas. unfold col_scale.
  rewrite (nth_map_lt _ _ k 0)
    by (rewrite Hoil, oil_production_length; exact Hk).
  rewrite Hoil, oil_production_nth by exact Hk.
  field.
Qed.

Lemma net_cash_flow_closed_form (fsolve : solver)
    (oil_price gas_price initial_production decline_rate discount_rate : Q)
    (df : DF.t) (s : Summary.t) (k : nat) :
  calculate_oil_gas_model fsolve oil_price gas_price initial_production
    decline_rate discount_rate = inr (df, s) ->
  (k < 60)%nat ->
  nth k (DF.Net_Cash_Flow df) 0
  == (925 # 1000) * nth k (DF.Total_Revenue df) 0
     - 15 * (1 + (25 # 1000) / 12) ^ Z.of_nat k
     - nth k capex_schedule 0.
Proof.
  intros E Hk.
  destruct (monthly_row_identities _ _ _ _ _ _ _ _ k E Hk)
    as (_ & _ & _ & _ & Hopex & Hsev & Htopex & Hnoi & Hncf & _).
  destruct (calculate_oil_gas_model_inv _ _ _ _ _ _ _ _ E)
    as (_ & _ & _ & _ & _ & Hcap & _).
  rewrite Hncf, Hnoi, Htopex, Hsev, Hopex, Hcap. ring.
Qed.

Lemma Forall2_of_nth (R : Q -> Q -> Prop) (l1 l2 : list Q) :
  length l1 = length l2 ->
  (forall k, (k < length l1)%nat -> R (nth k l1 0) (nth k l2 0)) ->
  Forall2 R l1 l2.
Proof.
  revert l2. induction l1 as [| x l1 IH]; intros [| y l2] Hlen Hnth;
    simpl in Hlen; try discriminate; constructor.
  - apply (Hnth 0%nat). simpl. lia.
  - apply IH; [lia |]. intros k Hk. apply (Hnth (S k)). simpl. lia.
Qed.

Lemma Forall2_firstn (R : Q -> Q -> Prop) (l1 l2 : list Q) (m : nat) :
  Forall2 R l1 l2 -> Forall2 R (firstn m l1) (firstn m l2).
Proof.
  intro H. revert m. induction H as [| x y l1 l2 Hxy H IH]; intros [| m];
    simpl; constructor; auto.
Qed.

Lemma series_sum_Forall2_le (l1 l2 : list Q) :
  Forall2 Qle l1 l2 -> series_sum l1 <= series_sum l2.
Proof.
  induction 1 as [| x y l1 l2 Hxy H IH].
  - apply Qle_refl.
  - rewrite !series_sum_cons. lra.
Qed.

Lemma weighted_sum_Forall2_le (l1 l2 w : list Q) :
  Forall2 Qle l1 l2 -> Forall (fun v => 0 <= v) w ->
  series_sum (col_mul l1 w) <= series_sum (col_mul l2 w).
Proof.
  intro H. revert w. induction H as [| x y l1 l2 Hxy H IH]; intros w Hw.
  - apply Qle_refl.
  - destruct Hw as [| v w Hv Hw]; [apply Qle_refl |].
    unfold col_mul in *. cbn [zip_with]. rewrite !series_sum_cons.
    specialize (IH w Hw).
    assert (Hm : 0 <= (y - x) * v) by (apply Qmult_le_0_compat; lra).
    lra.
Qed.

Lemma net_cash_flow_monotone (fsolve : solver)
    (oil_price1 gas_price1 initial_production1 decline_rate1 : Q)
    (oil_price2 gas_price2 initial_production2 decline_rate2 : Q)
    (discount_rate1 discount_rate2 : Q)
    (df1 df2 : DF.t) (s1 s2 : Summary.t) :
  0 <= oil_price1 -> oil_price1 <= oil_price2 ->
  0 <= gas_price1 -> gas_price1 <= gas_price2 ->
  0 <= initial_production1 -> initial_production1 <= initial_production2 ->
  decline_rate2 <= decline_rate1 -> decline_rate1 <= 100 ->
  calculate_oil_gas_model fsolve oil_price1 gas_price1 initial_production1
    decline_rate1 discount_rate1 = inr (df1, s1) ->
  calculate_oil_gas_model fsolve oil_price2 gas_price2 initial_production2
    decline_rate2 discount_rate2 = inr (df2, s2) ->
  Forall2 Qle (DF.Total_Revenue df1) (DF.Total_Revenue df2) /\
  Forall2 Qle (DF.Net_Cash_Flow df1) (DF.Net_Cash_Flow df2).
Proof.
  intros Ho1 Ho Hg1 Hg Hp1 Hp Hd Hd1 E1 E2.
  destruct (table_lengths _ _ _ _ _ _ _ _ E1)
    as (_ & _ & _ & _ & T1 & _ & _ & _ & _ & _ & N1 & _).
  destruct (table_lengths _ _ _ _ _ _ _ _ E2)
    as (_ & _ & _ & _ & T2 & _ & _ & _ & _ & _ & N2 & _).
  assert (Hrev : forall k, (k < 60)%nat ->
            nth k (DF.Total_Revenue df1) 0 <= nth k (DF.Total_Revenue df2) 0).
  { intros k Hk.
    rewrite (total_revenue_closed_form _ _ _ _ _ _ _ _ k E1 Hk).
    rewrite (total_revenue_closed_form _ _ _ _ _ _ _ _ k E2 Hk).
    assert (Hb1 : 0 <= 1 - decline_rate1 / 100)
      by (assert (decline_rate1 / 100 == decline_rate1 * (1 # 100)) by field; lra).
    assert (Hb12 : 1 - decline_rate1 / 100 <= 1 - decline_rate2 / 100).
    { assert (decline_rate1 / 100 == decline_rate1 * (1 # 100)) by field.
      assert (decline_rate2 / 100 == decline_rate2 * (1 # 100)) by field. lra. }
    destruct (Qpower_nat_le_compat _ _ k Hb1 Hb12) as [Hw0 Hw].
    set (w1 := (1 - decline_rate1 / 100) ^ Z.of_nat k) in *.
    set (w2 := (1 - decline_rate2 / 100) ^ Z.of_nat k) in *.
    assert (Hprod : 0 <= initial_production1 * w1 /\
                    initial_production1 * w1 <= initial_production2 * w2).
    { split; [apply Qmult_le_0_compat; assumption |].
      apply Qmult_le_compat_nonneg; split; assumption. }
    assert (Hprice : 0 <= oil_price1 + 6 * gas_price1 /\
                     oil_price1 + 6 * gas_price1 <= oil_price2 + 6 * gas_price2)
      by (split; lra).
    assert (Hall : initial_production1 * w1 * (oil_price1 + 6 * gas_price1)
                   <= initial_production2 * w2 * (oil_price2 + 6 * gas_price2))
      by (apply Qmult_le_compat_nonneg; assumption).
    unfold Qdiv. apply Qmult_le_compat_r; [exact Hall | discriminate]. }
  split.
  - apply Forall2_of_nth; [rewrite T1, T2; reflexivity |].
    intros k Hk. apply Hrev. rewrite T1 in Hk. exact Hk.
  - apply Forall2_of_nth; [rewrite N1, N2; reflexivity |].
    intros k Hk. rewrite N1 in Hk.
    rewrite (net_cash_flow_closed_form _ _ _ _ _ _ _ _ k E1 Hk).
    rewrite (net_cash_flow_closed_form _ _ _ _ _ _ _ _ k E2 Hk).
    specialize (Hrev k Hk). lra.
Qed.

Lemma cumsum_from_Forall2_le (l1 l2 : list Q) (a1 a2 : Q) :
  a1 <= a2 -> Forall2 Qle l1 l2 ->
  Forall2 Qle (cumsum_from a1 l1) (cumsum_from a2 l2).
Proof.
  intros Ha H. revert a1 a2 Ha.
  induction H as [| x y l1 l2 Hxy H IH]; intros a1 a2 Ha; cbn [cumsum_from].
  - constructor.
  - constructor; [lra | apply IH; lra].
Qed.

Lemma payback_loop_ge_index (cum : list Q) (i payback_month : nat) :
  (i + length cum <= payback_month)%nat ->
  (i <= payback_loop i cum payback_month)%nat.
Proof.
  revert i. induction cum as [| c rest IH]; intros i Hlen; cbn [payback_loop].
  - simpl in Hlen. lia.
  - simpl in Hlen. destruct (Qle_bool 0 c); [lia |].
    assert (S i <= payback_loop (S i) rest payback_month)%nat by (apply IH; lia).
    lia.
Qed.

Lemma payback_loop_antitone (cum1 cum2 : list Q) (i payback_month : nat) :
  Forall2 Qle cum1 cum2 ->
  (i + length cum1 <= payback_month)%nat ->
  (payback_loop i cum2 payback_month <= payback_loop i cum1 payback_month)%nat.
Proof.
  intro H. revert i. induction H as [| x y l1 l2 Hxy H IH]; intros i Hlen.
  - apply Nat.le_refl.
  - simpl in Hlen. cbn [payback_loop].
    destruct (Qle_bool 0 x) eqn:Ex.
    + apply Qle_bool_iff in Ex.
      assert (Ey : Qle_bool 0 y = true) by (apply Qle_bool_iff; lra).
      rewrite Ey. apply Nat.le_refl.
    + destruct (Qle_bool 0 y).
      * assert (S i <= payback_loop (S i) l1 payback_month)%nat
          by (apply payback_loop_ge_index; lia).
        lia.
      * apply IH. lia.
Qed.

Lemma pv_factors_nonneg (b : Q) (ms : list Z) :
  0 < b -> Forall (fun v => 0 <= v) (map (fun month => b ^ (- month)) ms).
Proof.
  intro Hb. apply Forall_forall. intros v Hv.
  apply in_map_iff in Hv. destruct Hv as [m [<- _]].
  apply Qlt_le_weak, Qpower_0_lt, Hb.
Qed.

Lemma projection_monotone (fsolve : solver)
    (oil_price1 gas_price1 initial_production1 decline_rate1 : Q)
    (oil_price2 gas_price2 initial_production2 decline_rate2 : Q)
    (discount_rate : Q)
    (df1 df2 : DF.t) (s1 s2 : Summary.t) :
  0 <= oil_price1 -> oil_price1 <= oil_price2 ->
  0 <= gas_price1 -> gas_price1 <= gas_price2 ->
  0 <= initial_production1 -> initial_production1 <= initial_production2 ->
  decline_rate2 <= decline_rate1 -> decline_rate1 <= 100 ->
  -1200 < discount_rate ->
  calculate_oil_gas_model fsolve oil_price1 gas_price1 initial_production1
    decline_rate1 discount_rate = inr (df1, s1) ->
  calculate_oil_gas_model fsolve oil_price2 gas_price2 initial_production2
    decline_rate2 discount_rate = inr (df2, s2) ->
  Summary.Total_Revenue s1 <= Summary.Total_Revenue s2 /\
  Summary.Final_Cumulative_CF s1 <= Summary.Final_Cumulative_CF s2 /\
  Summary.NPV s1 <= Summary.NPV s2 /\
  (Summary.Payback_Months s2 <= Summary.Payback_Months s1)%nat.
Proof.
  intros Ho1 Ho Hg1 Hg Hp1 Hp Hd Hd1 Hdisc E1 E2.
  destruct (net_cash_flow_monotone fsolve _ _ _ _ _ _ _ _ _ _ _ _ _ _
              Ho1 Ho Hg1 Hg Hp1 Hp Hd Hd1 E1 E2) as [Hrev Hncf].
  destruct (calculate_oil_gas_model_inv _ _ _ _ _ _ _ _ E1)
    as (_ & _ & _ & _ & _ & _ & _ & Hcum1 & Hpvf1 & Hpv1 & _ & Hnpv1 & Hpay1 & _).
  destruct (calculate_oil_gas_model_inv _ _ _ _ _ _ _ _ E2)
    as (_ & _ & _ & _ & _ & _ & _ & Hcum2 & Hpvf2 & Hpv2 & _ & Hnpv2 & Hpay2 & _).
  destruct (calculate_oil_gas_model_table _ _ _ _ _ _ _ _ E1)
    as (_ & _ & _ & _ & _ & _ & _ & Hr1 & _).
  destruct (calculate_oil_gas_model_table _ _ _ _ _ _ _ _ E2)
    as (_ & _ & _ & _ & _ & _ & _ & Hr2 & _).
  destruct (table_lengths _ _ _ _ _ _ _ _ E1)
    as (_ & _ & _ & _ & _ & _ & _ & _ & _ & _ & N1 & _).
  split; [rewrite Hr1, Hr2; apply series_sum_Forall2_le; exact Hrev |].
  split.
  { rewrite (final_cumulative_sum _ _ _ _ _ _ _ _ E1).
    rewrite (final_cumulative_sum _ _ _ _ _ _ _ _ E2).
    apply series_sum_Forall2_le. exact Hncf. }
  split.
  { rewrite Hnpv1, Hnpv2, Hpv1, Hpv2, Hpvf1, Hpvf2.
    apply weighted_sum_Forall2_le; [exact Hncf |].
    apply pv_factors_nonneg.
    assert (discount_rate / 100 / 12 == discount_rate * (1 # 1200)) by field.
    lra. }
  rewrite Hpay1, Hpay2, Hcum1, Hcum2. unfold cumsum.
  apply payback_loop_antitone.
  - apply cumsum_from_Forall2_le; [apply Qle_refl | exact Hncf].
  - rewrite cumsum_from_length, N1. lia.
Qed.

(** X9.  Better inputs never give a worse projection: with non-negative
    prices and production, raising the oil price, the gas price or the
    initial production, or lowering the decline rate (kept at most 100
    percent), at the same discount rate above -1200 percent, never lowers the
    total revenue, the final cumulative cash flow or the NPV, and never
    lengthens the payback period. *)
Theorem X9_better_parameters_never_hurt (fsolve : solver)
    (oil_price1 gas_price1 initial_production1 decline_rate1 : Q)
    (oil_price2 gas_price2 initial_production2 decline_rate2 : Q)
    (discount_rate : Q)
    (df1 df2 : DF.t) (s1 s2 : Summary.t) :
  0 <= oil_price1 -> oil_price1 <= oil_price2 ->
  0 <= gas_price1 -> gas_price1 <= gas_price2 ->
  0 <= initial_production1 -> initial_production1 <= initial_production2 ->
  decline_rate2 <= decline_rate1 -> decline_rate1 <= 100 ->
  -1200 < discount_rate ->
  calculate_oil_gas_model fsolve oil_price1 gas_price1 initial_production1
    decline_rate1 discount_rate = inr (df1, s1) ->
  calculate_oil_gas_model fsolve oil_price2 gas_price2 initial_production2
    decline_rate2 discount_rate = inr (df2, s2) ->
  Summary.Total_Revenue s1 <= Summary.Total_Revenue s2 /\
  Summary.Final_Cumulative_CF s1 <= Summary.Final_Cumulative_CF s2 /\
  Summary.NPV s1 <= Summary.NPV s2 /\
  (Summary.Payback_Months s2 <= Summary.Payback_Months s1)%nat.
Proof.
  intros Ho1 Ho Hg1 Hg Hp1 Hp Hd Hd1 Hdisc E1 E2.
  exact (projection_monotone fsolve _ _ _ _ _ _ _ _ _ _ _ _ _
           Ho1 Ho Hg1 Hg Hp1 Hp Hd Hd1 Hdisc E1 E2).
Qed.

Lemma X9_witness :
  exists df1 s1 df2 s2,
    calculate_oil_gas_model fsolve_gives_up 52 2.6 800 2.25 10 = inr (df1, s1) /\
    calculate_oil_gas_model fsolve_gives_up 65 3.25 1000 1.5 10 = inr (df2, s2) /\
    Summary.Total_Revenue s1 <= Summary.Total_Revenue s2 /\
    Summary.Final_Cumulative_CF s1 <= Summary.Final_Cumulative_CF s2 /\
    Summary.NPV s1 <= Summary.NPV s2 /\
    (Summary.Payback_Months s2 <= Summary.Payback_Months s1)%nat.
Proof.
  destruct (calculate_oil_gas_model_returns fsolve_gives_up 52 2.6 800 2.25 10)
    as [df1 [s1 E1]]; [lra |].
  destruct (calculate_oil_gas_model_returns fsolve_gives_up 65 3.25 1000 1.5 10)
    as [df2 [s2 E2]]; [lra |].
  exists df1, s1, df2, s2. split; [exact E1 |]. split; [exact E2 |].
  apply (X9_better_parameters_never_hurt fsolve_gives_up
           52 2.6 800 2.25 65 3.25 1000 1.5 10 df1 df2 s1 s2);
    try discriminate; try reflexivity; [exact E1 | exact E2].
Defined.

(** ** The scenario analysis *)

(** X10.  With non-negative prices, production and decline rate (at most
    100 percent after the factor 1.5) and a discount rate above -1200
    percent, the scenario analysis returns the three summaries in the order
    Conservative, Base Case, Optimistic, and their NPVs are ordered the same
    way, while the payback periods are ordered the other way. *)
Theorem X10_scenarios_are_ordered (fsolve : solver)
    (oil_price gas_price initial_production decline_rate discount_rate : Q) :
  0 <= oil_price -> 0 <= gas_price -> 0 <= initial_production ->
  0 <= decline_rate -> decline_rate * (15 # 10) <= 100 ->
  -1200 < discount_rate ->
  exists conservative base optimistic,
    scenario_results fsolve oil_price gas_price initial_production
      decline_rate discount_rate
    = inr [("Conservative"%string, conservative);
           ("Base Case"%string, base);
           ("Optimistic"%string, optimistic)] /\
    Summary.NPV conservative <= Summary.NPV base /\
    Summary.NPV base <= Summary.NPV optimistic /\
    (Summary.Payback_Months optimistic <= Summary.Payback_Months base)%nat /\
    (Summary.Payback_Months base <= Summary.Payback_Months conservative)%nat.
Proof.
  intros Ho Hg Hp Hd Hd15 Hdisc.
  assert (Hne : ~ discount_rate == -1200) by lra.
  destruct (calculate_oil_gas_model_returns fsolve (oil_price * (8 # 10))
              (gas_price * (8 # 10)) (initial_production * (8 # 10))
              (decline_rate * (15 # 10)) discount_rate Hne) as [dfc [sc Ec]].
  destruct (calculate_oil_gas_model_returns fsolve oil_price gas_price
              initial_production decline_rate discount_rate Hne) as [dfb [sb Eb]].
  destruct (calculate_oil_gas_model_returns fsolve (oil_price * (12 # 10))
              (gas_price * (12 # 10)) (initial_production * (12 # 10))
              (decline_rate * (7 # 10)) discount_rate Hne) as [dfo [so Eo]].
  exists sc, sb, so.
  split.
  { unfold scenario_results, scenarios.
    cbn [mapM fst snd Params.oil_price Params.gas_price Params.initial_production
         Params.decline_rate Params.discount_rate].
    rewrite Ec, Eb, Eo. reflexivity. }
  assert (Hcb : Summary.NPV sc <= Summary.NPV sb /\
                (Summary.Payback_Months sb <= Summary.Payback_Months sc)%nat).
  { destruct (fun h1 h2 h3 h4 h5 h6 h7 h8 =>
                projection_monotone fsolve
                  (oil_price * (8 # 10)) (gas_price * (8 # 10))
                  (initial_production * (8 # 10)) (decline_rate * (15 # 10))
                  oil_price gas_price initial_production decline_rate
                  discount_rate dfc dfb sc sb h1 h2 h3 h4 h5 h6 h7 h8 Hdisc Ec Eb)
      as (_ & _ & Hn & Hpb); try lra.
    split; assumption. }
  assert (Hbo : Summary.NPV sb <= Summary.NPV so /\
                (Summary.Payback_Months so <= Summary.Payback_Months sb)%nat).
  { destruct (fun h1 h2 h3 h4 h5 h6 h7 h8 =>
                projection_monotone fsolve
                  oil_price gas_price initial_production decline_rate
                  (oil_price * (12 # 10)) (gas_price * (12 # 10))
                  (initial_production * (12 # 10)) (decline_rate * (7 # 10))
                  discount_rate dfb dfo sb so h1 h2 h3 h4 h5 h6 h7 h8 Hdisc Eb Eo)
      as (_ & _ & Hn & Hpb); try lra.
    split; assumption. }
  destruct Hcb as [Hn1 Hp1]. destruct Hbo as [Hn2 Hp2].
  repeat split; assumption.
Qed.

Lemma X10_witness :
  exists conservative base optimistic,
    scenario_results fsolve_gives_up 65 3.25 1000 1.5 10
    = inr [("Conservative"%string, conservative);
           ("Base Case"%string, base);
           ("Optimistic"%string, optimistic)] /\
    Summary.NPV conservative <= Summary.NPV base /\
    Summary.NPV base <= Summary.NPV optimistic /\
    (Summary.Payback_Months optimistic <= Summary.Payback_Months base)%nat /\
    (Summary.Payback_Months base <= Summary.Payback_Months conservative)%nat.
Proof.
  apply (X10_scenarios_are_ordered fsolve_gives_up 65 3.25 1000 1.5 10);
    try discriminate; reflexivity.
Defined.

(** ** More on the Monte Carlo loop *)

Lemma calculate_irr_scipy_in_range (fsolve : solver) (cash_flows : list Q) :
  -100 <= calculate_irr_scipy fsolve cash_flows /\
  calculate_irr_scipy fsolve cash_flows <= 1000.
Proof.
  unfold calculate_irr_scipy.
  destruct (fsolve (npv_func cash_flows) (1 # 10)) as [| x ier].
  - split; discriminate.
  - split; [apply py_max_ge_r |].
    apply py_max_upper; [apply py_min_le_r | discriminate].
Qed.

Lemma summary_bounds (fsolve : solver)
    (oil_price gas_price initial_production decline_rate discount_rate : Q)
    (df : DF.t) (s : Summary.t) :
  calculate_oil_gas_model fsolve oil_price gas_price initial_production
    decline_rate discount_rate = inr (df, s) ->
  Summary.Total_Investment s = 1560 /\
  (1 <= Summary.Payback_Months s <= 60)%nat /\
  -100 <= Summary.IRR s /\ Summary.IRR s <= 1000.
Proof.
  intro E.
  destruct (calculate_oil_gas_model_inv _ _ _ _ _ _ _ _ E)
    as (_ & _ & _ & _ & _ & Hcap & _ & _ & _ & _ & Hinv & _ & Hpay & Hirr).
  destruct (table_lengths _ _ _ _ _ _ _ _ E)
    as (_ & _ & _ & _ & _ & _ & _ & _ & _ & _ & _ & L12 & _).
  split; [rewrite Hinv, Hcap; exact capex_total |].
  split.
  - rewrite Hpay.
    destruct (payback_loop_spec (DF.Cumulative_Cash_Flow df) 0 60)
      as [[k (Hk & _ & _ & Hp)] | [_ Hp]]; rewrite Hp; [rewrite L12 in Hk |]; lia.
  - rewrite Hirr. apply calculate_irr_scipy_in_range.
Qed.

(** X11.  Every row of a Monte Carlo batch has a total investment of 1560, a
    payback period between 1 and 60 months and an IRR between -100 and 1000
    percent. *)
Theorem X11_batch_rows_summary_bounds (fsolve : solver) (rng : Type)
    (normal : Q -> Q -> rng -> Q * rng)
    (base_params : Params.t) (num_simulations : nat)
    (volatility_factors : option Volatility.t) (g g' : rng) (batch : list Row.t) :
  run_monte_carlo_simulation fsolve rng normal base_params num_simulations
    volatility_factors g = inr (batch, g') ->
  Forall (fun row =>
            Row.Total_Investment row = 1560 /\
            (1 <= Row.Payback_Months row <= 60)%nat /\
            -100 <= Row.IRR row /\ Row.IRR row <= 1000)
    batch.
Proof.
  unfold run_monte_carlo_simulation. intro H.
  refine (proj1 (mc_loop_spec fsolve rng normal base_params _ _ _ _ _ _ _ _ H
                   (Forall_nil _))).
  intros g0 g1 row E.
  destruct (mc_trial_spec _ _ _ _ _ _ _ _ E)
    as [_ (df & s & Ecalc & _ & Hirr & Hpay & _ & Hinv & _)].
  rewrite Hirr, Hpay, Hinv.
  exact (summary_bounds _ _ _ _ _ _ _ _ Ecalc).
Qed.

Lemma X11_witness :
  exists batch g',
    run_monte_carlo_simulation fsolve_gives_up nat normal_low
      (Params.mk 65 3.25 1000 1.5 10) 3 None 0%nat = inr (batch, g') /\
    Forall (fun row =>
              Row.Total_Investment row = 1560 /\
              (1 <= Row.Payback_Months row <= 60)%nat /\
              -100 <= Row.IRR row /\ Row.IRR row <= 1000)
      batch.
Proof.
  destruct (mc_loop_returns fsolve_gives_up nat normal_low
              (Params.mk 65 3.25 1000 1.5 10) Volatility.default
              ltac:(cbn; lra) 3 [] 0%nat) as [batch [g' E]].
  exists batch, g'. split; [exact E |].
  exact (X11_batch_rows_summary_bounds fsolve_gives_up nat normal_low
           (Params.mk 65 3.25 1000 1.5 10) 3 None 0%nat g' batch E).
Defined.






(** ** More on the risk statistics *)

Lemma create_risk_assessment_fields (sqrt : Q -> Q) (mc_results : list Row.t) (r : Risk.t) :
  create_risk_assessment sqrt mc_results = inr r ->
  mc_results <> [] /\
  Risk.Probability_Positive r
  = bool_mean (map (fun v => Qlt_bool 0 v) (map Row.NPV mc_results)) * 100 /\
  Risk.Probability_Excellent r
  = bool_mean (map (fun v => Qlt_bool (linear_quantile (map Row.NPV mc_results) (75 # 100)) v)
                 (map Row.NPV mc_results)) * 100 /\
  Risk.Value_at_Risk_5 r = np_percentile (map Row.NPV mc_results) 5 /\
  Risk.P10_NPV r = np_percentile (map Row.NPV mc_results) 10 /\
  Risk.P50_NPV r = np_percentile (map Row.NPV mc_results) 50 /\
  Risk.P90_NPV r = np_percentile (map Row.NPV mc_results) 90 /\
  Risk.Downside_Deviation r
  = (if (0 <? length (filter (fun v => Qlt_bool v (Risk.Expected_NPV r))
                        (map Row.NPV mc_results)))%nat
     then series_std sqrt (filter (fun v => Qlt_bool v (Risk.Expected_NPV r))
                             (map Row.NPV mc_results))
     else Fin 0).
Proof.
  intro H.
  destruct mc_results as [| row rest]; [discriminate H |].
  unfold create_risk_assessment, column_NPV, bind, ok in H.
  injection H as <-.
  split; [discriminate |]. repeat split.
Qed.

Lemma filter_map_length {A} (f : A -> bool) (l : list A) :
  length (filter (fun b => b) (map f l)) = length (filter f l).
Proof.
  induction l as [| x t IH]; [reflexivity |].
  simpl. destruct (f x); simpl; rewrite IH; reflexivity.
Qed.

Lemma filter_length_bound {A} (f : A -> bool) (l : list A) :
  (length (filter f l) <= length l)%nat.
Proof.
  induction l as [| x t IH]; [apply Nat.le_refl |].
  simpl. destruct (f x); simpl; lia.
Qed.

Lemma filter_length_all {A} (f : A -> bool) (l : list A) :
  length (filter f l) = length l <-> Forall (fun x => f x = true) l.
Proof.
  induction l as [| x t IH]; simpl.
  - split; [constructor | reflexivity].
  - pose proof (filter_length_bound f t) as Hb.
    destruct (f x) eqn:E; simpl; split; intro H.
    + constructor; [exact E | apply IH; lia].
    + inversion H; subst. f_equal. apply IH. assumption.
    + lia.
    + inversion H; subst. congruence.
Qed.

Lemma filter_length_none {A} (f : A -> bool) (l : list A) :
  length (filter f l) = 0%nat <-> Forall (fun x => f x = false) l.
Proof.
  induction l as [| x t IH]; simpl.
  - split; [constructor | reflexivity].
  - destruct (f x) eqn:E; simpl; split; intro H.
    + discriminate H.
    + inversion H; subst. congruence.
    + constructor; [exact E | apply IH; exact H].
    + inversion H; subst. apply IH. assumption.
Qed.

Lemma count_positive (n : nat) : (0 < n)%nat -> 0 < inject_Z (Z.of_nat n).
Proof.
  intro H. change 0 with (inject_Z 0). rewrite <- Zlt_Qlt. lia.
Qed.

Lemma bool_mean_share {A} (f : A -> bool) (l : list A) :
  l <> [] ->
  0 <= bool_mean (map f l) /\ bool_mean (map f l) <= 1 /\
  (bool_mean (map f l) == 1 <-> Forall (fun x => f x = true) l) /\
  (bool_mean (map f l) == 0 <-> Forall (fun x => f x = false) l).
Proof.
  intro Hne. unfold bool_mean.
  rewrite filter_map_length, length_map.
  assert (Hn : (0 < length l)%nat) by (destruct l; [contradiction | simpl; lia]).
  pose proof (count_positive _ Hn) as HN.
  pose proof (filter_length_bound f l) as Hb.
  set (c := length (filter f l)) in *. set (n := length l) in *.
  assert (HC0 : 0 <= inject_Z (Z.of_nat c))
    by (change 0 with (inject_Z 0); rewrite <- Zle_Qle; lia).
  assert (HCN : inject_Z (Z.of_nat c) <= inject_Z (Z.of_nat n))
    by (rewrite <- Zle_Qle; lia).
  assert (Hscaled : inject_Z (Z.of_nat c) / inject_Z (Z.of_nat n) * inject_Z (Z.of_nat n)
                    == inject_Z (Z.of_nat c)) by (field; lra).
  split; [apply Qle_shift_div_l; [exact HN | lra] |].
  split; [apply Qle_shift_div_r; [exact HN | lra] |].
  split.
  - rewrite <- (filter_length_all f l). fold c n. split; intro H.
    + rewrite H in Hscaled.
      assert (He : inject_Z (Z.of_nat c) == inject_Z (Z.of_nat n))
        by (rewrite <- Hscaled; ring).
      exact (Nat2Z.inj _ _ (proj1 (inject_Z_injective _ _) He)).
    + rewrite H. field. lra.
  - rewrite <- (filter_length_none f l). fold c. split; intro H.
    + rewrite H in Hscaled.
      assert (He : inject_Z (Z.of_nat c) == inject_Z 0)
        by (rewrite <- Hscaled; change (inject_Z 0) with 0; ring).
      exact (Nat2Z.inj _ 0%nat (proj1 (inject_Z_injective _ _) He)).
    + rewrite H. simpl. field. lra.
Qed.

(** X14.  The probability of a positive NPV lies between 0 and 100; it is 100
    exactly when every run has a positive NPV and 0 exactly when no run
    has. *)
Theorem X14_probability_positive (sqrt : Q -> Q) (mc_results : list Row.t) (r : Risk.t) :
  create_risk_assessment sqrt mc_results = inr r ->
  0 <= Risk.Probability_Positive r /\
  Risk.Probability_Positive r <= 100 /\
  (Risk.Probability_Positive r == 100
   <-> Forall (fun row => 0 < Row.NPV row) mc_results) /\
  (Risk.Probability_Positive r == 0
   <-> Forall (fun row => Row.NPV row <= 0) mc_results).
Proof.
  intro E.
  destruct (create_risk_assessment_fields sqrt mc_results r E) as (Hne & Hpp & _).
  rewrite Hpp, map_map.
  destruct (bool_mean_share (fun row => Qlt_bool 0 (Row.NPV row)) mc_results Hne)
    as (H0 & H1 & Hall & Hnone).
  set (m := bool_mean (map (fun row => Qlt_bool 0 (Row.NPV row)) mc_results)) in *.
  split; [lra |]. split; [lra |].
  split.
  - split; intro H.
    + assert (Hm : m == 1) by lra.
      apply Hall in Hm. rewrite Forall_forall in *.
      intros row Hrow. apply Qlt_bool_iff. exact (Hm row Hrow).
    + assert (Hm : m == 1).
      { apply Hall. rewrite Forall_forall in *.
        intros row Hrow. apply Qlt_bool_iff. exact (H row Hrow). }
      lra.
  - split; intro H.
    + assert (Hm : m == 0) by lra.
      apply Hnone in Hm. rewrite Forall_forall in *.
      intros row Hrow. apply Qlt_bool_false_iff. exact (Hm row Hrow).
    + assert (Hm : m == 0).
      { apply Hnone. rewrite Forall_forall in *.
        intros row Hrow. apply Qlt_bool_false_iff. exact (H row Hrow). }
      lra.
Qed.

Lemma X14_witness :
  exists r,
    create_risk_assessment sqrt_floor
      [Row.mk 65 3 1000 1 100 10 30 1 1560 1; Row.mk 70 4 1100 2 50 11 29 2 1560 2]
    = inr r /\
    Risk.Probability_Positive r == 100.
Proof.
  destruct (create_risk_assessment_nonempty sqrt_floor
              [Row.mk 65 3 1000 1 100 10 30 1 1560 1;
               Row.mk 70 4 1100 2 50 11 29 2 1560 2]
              ltac:(discriminate)) as [r [E _]].
  exists r. split; [exact E |].
  apply (proj1 (proj2 (proj2 (X14_probability_positive sqrt_floor _ r E)))).
  repeat constructor.
Defined.

Lemma filter_disjoint_count {A} (p q : A -> bool) (l : list A) :
  (forall x, p x = true -> q x = false) ->
  (length (filter p l) + length (filter q l) <= length l)%nat /\
  (Forall (fun x => p x = true \/ q x = true) l ->
   (length (filter p l) + length (filter q l))%nat = length l).
Proof.
  intro Hdis. induction l as [| x t [IHle IHeq]]; simpl.
  - split; [lia | reflexivity].
  - destruct (p x) eqn:Ep.
    + rewrite (Hdis x Ep). simpl. split; [lia |].
      intro H. inversion H; subst. rewrite <- IHeq by assumption. lia.
    + destruct (q x) eqn:Eq; simpl.
      * split; [lia |].
        intro H. inversion H; subst. rewrite <- IHeq by assumption. lia.
      * split; [lia |].
        intro H. inversion H as [| ? ? [Hx | Hx] ?]; subst; congruence.
Qed.

(** X15.  The probability of a positive NPV and the downside risk shown
    beside it never add up to more than 100, and add up to exactly 100 when
    no run has an NPV of exactly zero. *)
Theorem X15_positive_and_downside_shares (sqrt : Q -> Q)
    (mc_results : list Row.t) (r : Risk.t) :
  create_risk_assessment sqrt mc_results = inr r ->
  Risk.Probability_Positive r + downside_risk mc_results <= 100 /\
  (Forall (fun row => ~ Row.NPV row == 0) mc_results ->
   Risk.Probability_Positive r + downside_risk mc_results == 100).
Proof.
  intro E.
  destruct (create_risk_assessment_fields sqrt mc_results r E) as (Hne & Hpp & _).
  rewrite Hpp. unfold downside_risk. rewrite !map_map.
  unfold bool_mean. rewrite !filter_map_length, !length_map.
  assert (Hn : (0 < length mc_results)%nat)
    by (destruct mc_results; [contradiction | simpl; lia]).
  pose proof (count_positive _ Hn) as HN.
  destruct (filter_disjoint_count
              (fun row => Qlt_bool 0 (Row.NPV row))
              (fun row => Qlt_bool (Row.NPV row) 0) mc_results) as [Hle Heq].
  { intros row Hp. apply Qlt_bool_iff in Hp. apply Qlt_bool_false_iff. lra. }
  set (cp := length (filter (fun row => Qlt_bool 0 (Row.NPV row)) mc_results)) in *.
  set (cn := length (filter (fun row => Qlt_bool (Row.NPV row) 0) mc_results)) in *.
  set (n := length mc_results) in *.
  assert (Hsum : inject_Z (Z.of_nat cp) / inject_Z (Z.of_nat n) * 100
                 + inject_Z (Z.of_nat cn) / inject_Z (Z.of_nat n) * 100
                 == inject_Z (Z.of_nat (cp + cn)) / inject_Z (Z.of_nat n) * 100).
  { rewrite Nat2Z.inj_add, inject_Z_plus. field. lra. }
  rewrite Hsum.
  split.
  - assert (Hq : inject_Z (Z.of_nat (cp + cn)) / inject_Z (Z.of_nat n) <= 1).
    { apply Qle_shift_div_r; [exact HN |].
      rewrite Qmult_1_l, <- Zle_Qle. lia. }
    lra.
  - intro Hnz. rewrite Heq.
    + field. lra.
    + rewrite Forall_forall in *. intros row Hrow.
      destruct (Qlt_bool 0 (Row.NPV row)) eqn:Ep; [left; reflexivity | right].
      apply Qlt_bool_false_iff in Ep. apply Qlt_bool_iff.
      specialize (Hnz row Hrow).
      destruct (Qlt_le_dec (Row.NPV row) 0) as [Hlt | Hge]; [exact Hlt |].
      exfalso. apply Hnz. apply Qle_antisym; assumption.
Qed.

Lemma X15_witness :
  exists r,
    create_risk_assessment sqrt_floor
      [Row.mk 65 3 1000 1 100 10 30 1 1560 1; Row.mk 70 4 1100 2 (-50) 11 60 2 1560 2]
    = inr r /\
    Risk.Probability_Positive r
    + downside_risk [Row.mk 65 3 1000 1 100 10 30 1 1560 1;
                     Row.mk 70 4 1100 2 (-50) 11 60 2 1560 2] == 100.
Proof.
  destruct (create_risk_assessment_nonempty sqrt_floor
              [Row.mk 65 3 1000 1 100 10 30 1 1560 1;
               Row.mk 70 4 1100 2 (-50) 11 60 2 1560 2]
              ltac:(discriminate)) as [r [E _]].
  exists r. split; [exact E |].
  apply (proj2 (X15_positive_and_downside_shares sqrt_floor _ r E)).
  repeat constructor; discriminate.
Defined.

(** ** Order statistics *)

Lemma insert_sorted_Forall (P : Q -> Prop) (x : Q) (l : list Q) :
  P x -> Forall P l -> Forall P (insert_sorted x l).
Proof.
  intros Hx Hl. induction Hl as [| y t Hy Ht IH]; cbn [insert_sorted].
  - constructor; [exact Hx | constructor].
  - destruct (Qle_bool x y); repeat constructor; assumption.
Qed.

Lemma insert_sorted_length (x : Q) (l : list Q) :
  length (insert_sorted x l) = S (length l).
Proof.
  induction l as [| y t IH]; cbn [insert_sorted]; [reflexivity |].
  destruct (Qle_bool x y); simpl; [reflexivity | now rewrite IH].
Qed.

Lemma insert_sorted_sorted (x : Q) (l : list Q) :
  StronglySorted Qle l -> StronglySorted Qle (insert_sorted x l).
Proof.
  intro H. induction H as [| y t Hs IH Hall]; cbn [insert_sorted].
  - constructor; constructor.
  - destruct (Qle_bool x y) eqn:E.
    + apply Qle_bool_iff in E.
      constructor; [constructor; assumption |].
      constructor; [exact E |].
      eapply Forall_impl; [| exact Hall].
      intros z Hz. exact (Qle_trans _ _ _ E Hz).
    + apply Qle_bool_false_iff in E.
      constructor; [exact IH |].
      apply insert_sorted_Forall; [apply Qlt_le_weak; exact E | exact Hall].
Qed.

Lemma sort_sorted (l : list Q) : StronglySorted Qle (sort l).
Proof.
  unfold sort. induction l as [| x t IH]; cbn [fold_right].
  - constructor.
  - apply insert_sorted_sorted. exact IH.
Qed.

Lemma sort_length (l : list Q) : length (sort l) = length l.
Proof.
  unfold sort. induction l as [| x t IH]; cbn [fold_right]; [reflexivity |].
  rewrite insert_sorted_length, IH. reflexivity.
Qed.

Lemma sorted_nth_le (s : list Q) (i j : nat) :
  StronglySorted Qle s -> (i <= j)%nat -> (j < length s)%nat ->
  nth i s 0 <= nth j s 0.
Proof.
  intro H. revert i j. induction H as [| x t Hs IH Hall]; intros i j Hij Hj.
  - simpl in Hj. lia.
  - simpl in Hj. destruct i as [| i], j as [| j]; try lia.
    + apply Qle_refl.
    + simpl. rewrite Forall_forall in Hall. apply Hall.
      apply nth_In. lia.
    + simpl. apply IH; lia.
Qed.

(** Where the interpolation sits: between the order statistics at the floor
    of the virtual index and at the next index. *)
Lemma linear_quantile_between (l : list Q) (p : Q) :
  l <> [] -> 0 <= p -> p <= 1 ->
  (0 <= Qfloor (inject_Z (Z.of_nat (length l - 1)) * p)
   <= Z.of_nat (length l - 1))%Z /\
  nth (Z.to_nat (Qfloor (inject_Z (Z.of_nat (length l - 1)) * p))) (sort l) 0
  <= linear_quantile l p /\
  linear_quantile l p
  <= nth (Z.to_nat (Z.min (Qfloor (inject_Z (Z.of_nat (length l - 1)) * p) + 1)
                      (Z.of_nat (length l - 1)))) (sort l) 0.
Proof.
  intros Hne Hp0 Hp1. unfold linear_quantile. cbv zeta.
  assert (Hn : (0 < length l)%nat) by (destruct l; [contradiction | simpl; lia]).
  set (top := Z.of_nat (length l - 1)).
  set (vi := inject_Z top * p).
  set (lo := Qfloor vi).
  assert (Htop : 0 <= inject_Z top)
    by (change 0 with (inject_Z 0); rewrite <- Zle_Qle; unfold top; lia).
  assert (Hvi0 : 0 <= vi) by (unfold vi; apply Qmult_le_0_compat; assumption).
  assert (Hvi1 : vi <= inject_Z top).
  { unfold vi. assert (H : 0 <= inject_Z top * (1 - p))
      by (apply Qmult_le_0_compat; lra). lra. }
  assert (Hlo0 : (0 <= lo)%Z).
  { unfold lo. change 0%Z with (Qfloor 0). apply Qfloor_resp_le. exact Hvi0. }
  assert (Hlo1 : (lo <= top)%Z).
  { unfold lo. rewrite <- (Qfloor_Z top). apply Qfloor_resp_le. exact Hvi1. }
  split; [split; assumption |].
  assert (Hg0 : 0 <= vi - inject_Z lo) by (pose proof (Qfloor_le vi); fold lo in H; lra).
  assert (Hg1 : vi - inject_Z lo <= 1).
  { pose proof (Qlt_floor vi) as H. fold lo in H.
    rewrite inject_Z_plus in H. change (inject_Z 1) with 1 in H. lra. }
  assert (Hab : nth (Z.to_nat lo) (sort l) 0
                <= nth (Z.to_nat (Z.min (lo + 1) top)) (sort l) 0).
  { apply sorted_nth_le; [apply sort_sorted | |].
    - apply Z2Nat.inj_le; lia.
    - rewrite sort_length. unfold top. lia. }
  set (a := nth (Z.to_nat lo) (sort l) 0) in *.
  set (b := nth (Z.to_nat (Z.min (lo + 1) top)) (sort l) 0) in *.
  set (g := vi - inject_Z lo) in *.
  assert (H1 : 0 <= (b - a) * g) by (apply Qmult_le_0_compat; lra).
  assert (H2 : 0 <= (b - a) * (1 - g)) by (apply Qmult_le_0_compat; lra).
  split; lra.
Qed.

Lemma linear_quantile_monotone (l : list Q) (p p' : Q) :
  l <> [] -> 0 <= p -> p <= p' -> p' <= 1 ->
  linear_quantile l p <= linear_quantile l p'.
Proof.
  intros Hne Hp0 Hpp Hp1.
  assert (Hn : (0 < length l)%nat) by (destruct l; [contradiction | simpl; lia]).
  destruct (linear_quantile_between l p Hne Hp0 ltac:(lra)) as ([Hlo0 Hlo1] & Hlow & Hup).
  destruct (linear_quantile_between l p' Hne ltac:(lra) Hp1) as ([Hlo0' Hlo1'] & Hlow' & Hup').
  set (top := Z.of_nat (length l - 1)) in *.
  assert (Htop : 0 <= inject_Z top)
    by (change 0 with (inject_Z 0); rewrite <- Zle_Qle; unfold top; lia).
  assert (Hvi : inject_Z top * p <= inject_Z top * p').
  { assert (H : 0 <= inject_Z top * (p' - p)) by (apply Qmult_le_0_compat; lra). lra. }
  pose proof (Qfloor_resp_le _ _ Hvi) as Hlo.
  set (lo := Qfloor (inject_Z top * p)) in *.
  set (lo' := Qfloor (inject_Z top * p')) in *.
  destruct (Z.eq_dec lo lo') as [Heq | Hneq].
  - unfold linear_quantile. cbv zeta. fold top. fold lo lo'. rewrite <- Heq.
    assert (Hab : nth (Z.to_nat lo) (sort l) 0
                  <= nth (Z.to_nat (Z.min (lo + 1) top)) (sort l) 0).
    { apply sorted_nth_le; [apply sort_sorted | |].
      - apply Z2Nat.inj_le; lia.
      - rewrite sort_length. unfold top. lia. }
    set (a := nth (Z.to_nat lo) (sort l) 0) in *.
    set (b := nth (Z.to_nat (Z.min (lo + 1) top)) (sort l) 0) in *.
    assert (H : 0 <= (b - a) * (inject_Z top * p' - inject_Z top * p))
      by (apply Qmult_le_0_compat; lra).
    lra.
  - assert (Hmid : nth (Z.to_nat (Z.min (lo + 1) top)) (sort l) 0
                   <= nth (Z.to_nat lo') (sort l) 0).
    { apply sorted_nth_le; [apply sort_sorted | |].
      - apply Z2Nat.inj_le; lia.
      - rewrite sort_length. unfold top in *. lia. }
    lra.
Qed.

(** X16.  The reported percentiles are ordered: the 5 percent value at risk
    is at most P10, P10 at most P50 and P50 at most P90. *)
Theorem X16_percentiles_are_ordered (sqrt : Q -> Q)
    (mc_results : list Row.t) (r : Risk.t) :
  create_risk_assessment sqrt mc_results = inr r ->
  Risk.Value_at_Risk_5 r <= Risk.P10_NPV r /\
  Risk.P10_NPV r <= Risk.P50_NPV r /\
  Risk.P50_NPV r <= Risk.P90_NPV r.
Proof.
  intro E.
  destruct (create_risk_assessment_fields sqrt mc_results r E)
    as (Hne & _ & _ & Hvar & H10 & H50 & H90 & _).
  assert (Hne' : map Row.NPV mc_results <> [])
    by (destruct mc_results; [contradiction | discriminate]).
  rewrite Hvar, H10, H50, H90. unfold np_percentile.
  repeat split; apply linear_quantile_monotone; try exact Hne'; discriminate.
Qed.

Lemma X16_witness :
  exists r,
    create_risk_assessment sqrt_floor
      [Row.mk 65 3 1000 1 100 10 30 1 1560 1; Row.mk 70 4 1100 2 (-50) 11 60 2 1560 2;
       Row.mk 60 3 900 2 20 5 40 2 1560 2]
    = inr r /\
    Risk.Value_at_Risk_5 r <= Risk.P10_NPV r /\
    Risk.P10_NPV r <= Risk.P50_NPV r /\
    Risk.P50_NPV r <= Risk.P90_NPV r.
Proof.
  destruct (create_risk_assessment_nonempty sqrt_floor
              [Row.mk 65 3 1000 1 100 10 30 1 1560 1;
               Row.mk 70 4 1100 2 (-50) 11 60 2 1560 2;
               Row.mk 60 3 900 2 20 5 40 2 1560 2]
              ltac:(discriminate)) as [r [E _]].
  exists r. split; [exact E |].
  exact (X16_percentiles_are_ordered sqrt_floor _ r E).
Defined.

(** ** The downside deviation *)



(** ** The IRR clamp *)

(** X18.  When the root-finder returns the iterate [x], the IRR is [100 x]
    if that lies within [-100, 1000], is 1000 if [100 x] is above 1000 and is
    -100 if [100 x] is below -100. *)
Theorem X18_irr_clamp (fsolve : solver) (cash_flows : list Q) (x : Q) (ier : Z) :
  fsolve (npv_func cash_flows) (1 # 10) = FsolveReturned x ier ->
  (-100 <= x * 100 -> x * 100 <= 1000 ->
   calculate_irr_scipy fsolve cash_flows = x * 100) /\
  (1000 < x * 100 -> calculate_irr_scipy fsolve cash_flows = 1000) /\
  (x * 100 < -100 -> calculate_irr_scipy fsolve cash_flows = -100).
Proof.
  intro E. unfold calculate_irr_scipy. rewrite E. unfold py_max, py_min.
  split; [| split].
  - intros Hlo Hhi.
    assert (H1 : Qlt_bool 1000 (x * 100) = false) by (apply Qlt_bool_false_iff; exact Hhi).
    rewrite H1.
    assert (H2 : Qlt_bool (x * 100) (-100) = false) by (apply Qlt_bool_false_iff; exact Hlo).
    rewrite H2. reflexivity.
  - intro Hhi.
    assert (H1 : Qlt_bool 1000 (x * 100) = true) by (apply Qlt_bool_iff; exact Hhi).
    rewrite H1. reflexivity.
  - intro Hlo.
    assert (H1 : Qlt_bool 1000 (x * 100) = false) by (apply Qlt_bool_false_iff; lra).
    rewrite H1.
    assert (H2 : Qlt_bool (x * 100) (-100) = true) by (apply Qlt_bool_iff; exact Hlo).
    rewrite H2. reflexivity.
Qed.

Lemma X18_witness :
  calculate_irr_scipy fsolve_gives_up [-500; 300; 300] = (1 # 10) * 100.
Proof.
  apply (proj1 (X18_irr_clamp fsolve_gives_up [-500; 300; 300] (1 # 10) 5 eq_refl));
    discriminate.
Defined.

(** ** Edges of the payback period and of the decline *)

Lemma cumsum_from_negative (l : list Q) (a : Q) (k : nat) :
  a <= 0 -> Forall (fun v => v < 0) l -> (k < length l)%nat ->
  nth k (cumsum_from a l) 0 < 0.
Proof.
  intros Ha Hl. revert a k Ha.
  induction Hl as [| x t Hx Ht IH]; intros a k Ha Hk; simpl in Hk; [lia |].
  cbn [cumsum_from]. destruct k as [| k]; simpl.
  - lra.
  - apply IH; [lra | lia].
Qed.

(** X19.  A payback period of 60 does not tell whether the investment paid
    back: when the cumulative cash flow is negative through month 59, the
    payback period is 60 whatever the sign of the cumulative cash flow of
    month 60. *)
Theorem X19_payback_sixty_is_ambiguous (fsolve : solver)
    (oil_price gas_price initial_production decline_rate discount_rate : Q)
    (df : DF.t) (s : Summary.t) :
  calculate_oil_gas_model fsolve oil_price gas_price initial_production
    decline_rate discount_rate = inr (df, s) ->
  (forall m, (1 <= m <= 59)%nat -> nth (m - 1) (DF.Cumulative_Cash_Flow df) 0 < 0) ->
  Summary.Payback_Months s = 60%nat.
Proof.
  intros E Hneg.
  destruct (calculate_oil_gas_model_inv _ _ _ _ _ _ _ _ E)
    as (_ & _ & _ & _ & _ & _ & _ & _ & _ & _ & _ & _ & Hpay & _).
  destruct (table_lengths _ _ _ _ _ _ _ _ E)
    as (_ & _ & _ & _ & _ & _ & _ & _ & _ & _ & _ & L12 & _).
  rewrite Hpay.
  destruct (payback_loop_spec (DF.Cumulative_Cash_Flow df) 0 60)
    as [[k (Hk & Hge & _ & Hp)] | [_ Hp]]; [| exact Hp].
  rewrite L12 in Hk. rewrite Hp.
  destruct (Nat.eq_dec k 59) as [-> | Hne]; [reflexivity |].
  exfalso. specialize (Hneg (k + 1)%nat ltac:(lia)).
  replace (k + 1 - 1)%nat with k in Hneg by lia. lra.
Qed.

(** A well that produces nothing never pays back. *)
Lemma X19_witness :
  exists df s,
    calculate_oil_gas_model fsolve_gives_up 65 3.25 0 1.5 10 = inr (df, s) /\
    Summary.Payback_Months s = 60%nat.
Proof.
  destruct (calculate_oil_gas_model_returns fsolve_gives_up 65 3.25 0 1.5 10)
    as [df [s E]]; [lra |].
  exists df, s. split; [exact E |].
  apply (X19_payback_sixty_is_ambiguous fsolve_gives_up 65 3.25 0 1.5 10 df s E).
  destruct (calculate_oil_gas_model_inv _ _ _ _ _ _ _ _ E)
    as (_ & _ & _ & _ & _ & _ & Hncf & Hcum & _).
  intros m Hm. rewrite Hcum, Hncf. unfold cumsum.
  apply cumsum_from_negative.
  - apply Qle_refl.
  - apply Forall_forall. intros v Hv.
    assert (Hb : forallb (fun v => Qlt_bool v 0)
                   (net_cash_flow_col 65 3.25 0 (1.5 / 100)) = true)
      by (vm_compute; reflexivity).
    apply Qlt_bool_iff. exact (proj1 (forallb_forall _ _) Hb v Hv).
  - rewrite net_cash_flow_col_length. lia.
Defined.

(** X20.  The two ends of the decline rate: at 0 percent production is flat,
    every month produces the initial production; at 100 percent the well
    produces in month 1 only. *)
Theorem X20_decline_rate_edges (fsolve : solver)
    (oil_price gas_price initial_production decline_rate discount_rate : Q)
    (df : DF.t) (s : Summary.t) :
  calculate_oil_gas_model fsolve oil_price gas_price initial_production
    decline_rate discount_rate = inr (df, s) ->
  (decline_rate == 0 ->
   forall k, (k < 60)%nat -> nth k (DF.Oil_Production df) 0 == initial_production) /\
  (decline_rate == 100 ->
   nth 0 (DF.Oil_Production df) 0 == initial_production /\
   forall k, (1 <= k < 60)%nat -> nth k (DF.Oil_Production df) 0 == 0).
Proof.
  intro E.
  destruct (calculate_oil_gas_model_inv _ _ _ _ _ _ _ _ E) as (_ & _ & Hoil & _).
  rewrite Hoil. split.
  - intros Hz k Hk. rewrite oil_production_nth by exact Hk.
    assert (Hb : 1 - decline_rate / 100 == 1) by (rewrite Hz; reflexivity).
    rewrite Hb, Qpower_1. ring.
  - intro Hz.
    assert (Hb : 1 - decline_rate / 100 == 0) by (rewrite Hz; reflexivity).
    split.
    + rewrite oil_production_nth by lia. simpl. ring.
    + intros k Hk. rewrite oil_production_nth by lia.
      rewrite Hb, Qpower_0 by lia. ring.
Qed.

Lemma X20_witness :
  exists df s,
    calculate_oil_gas_model fsolve_gives_up 65 3.25 1000 0 10 = inr (df, s) /\
    forall k, (k < 60)%nat -> nth k (DF.Oil_Production df) 0 == 1000.
Proof.
  destruct (calculate_oil_gas_model_returns fsolve_gives_up 65 3.25 1000 0 10)
    as [df [s E]]; [lra |].
  exists df, s. split; [exact E |].
  apply (proj1 (X20_decline_rate_edges fsolve_gives_up 65 3.25 1000 0 10 df s E)).
  reflexivity.
Defined.
